(** * web_scraper.py: element classifier, element model and session controller

    A shallow embedding of [src/web_scraper.py].

    - [Classifier]: the in-page script [JS_GET_CLICKABLE_ELEMENTS], run on a
      tree model of the live DOM.
    - [Model]: the data classes [ElementInfo] and [PageAnalysis] with their
      [to_dict] methods, over a tree of JSON values.
    - [Controller]: [WebScraper.find_clickable_elements], [highlight_element]
      and [click_element], written in a state-and-exception monad over an
      arbitrary browser engine.

    Numbers.  JavaScript numbers and Python floats are modelled by the
    rationals [Q]: every finite double is a rational, and the comparisons
    against the integer constants that the script makes are exact there.
    [NaN] and the infinities, which [getBoundingClientRect] never returns, are
    outside the model, as is the rounding of [x + width / 2].

    Strings.  [string] stands for both JavaScript and Python strings; one
    character of the model is one code unit. *)

From Stdlib Require Import List String Ascii ZArith QArith Bool Lia.
From Stdlib Require Import DecimalString FinFun.
Import ListNotations.

Local Open Scope string_scope.
Local Open Scope Z_scope.

(** ** Strings and dictionaries *)

Module Str.

(** The double quote, which the script puts around an id in an XPath. *)
Definition dquote : string := String "034"%char EmptyString.

Definition nonempty (s : string) : bool :=
  match s with EmptyString => false | String _ _ => true end.

(** [String.prototype.toLowerCase] on the letters A to Z. *)
Definition lower_ascii (c : ascii) : ascii :=
  let n := nat_of_ascii c in
  if andb (Nat.leb 65 n) (Nat.leb n 90) then ascii_of_nat (n + 32) else c.

Fixpoint toLowerCase (s : string) : string :=
  match s with
  | EmptyString => EmptyString
  | String c s' => String (lower_ascii c) (toLowerCase s')
  end.

(** White space as [String.prototype.trim] sees it, among one-byte characters:
    tab, line feed, vertical tab, form feed, carriage return, space. *)
Definition is_space (c : ascii) : bool :=
  let n := nat_of_ascii c in
  orb (andb (Nat.leb 9 n) (Nat.leb n 13)) (Nat.eqb n 32).

Fixpoint trimStart (s : string) : string :=
  match s with
  | EmptyString => EmptyString
  | String c s' => if is_space c then trimStart s' else s
  end.

Fixpoint rev_onto (s acc : string) : string :=
  match s with
  | EmptyString => acc
  | String c s' => rev_onto s' (String c acc)
  end.

Definition reverse (s : string) : string := rev_onto s EmptyString.

Definition trim (s : string) : string :=
  reverse (trimStart (reverse (trimStart s))).

(** [s.substring(0, n)]. *)
Definition prefix_of_length (n : nat) (s : string) : string := substring 0 n s.

(** Decimal notation of a natural number, as a template literal prints it. *)
Definition of_nat (n : nat) : string := NilEmpty.string_of_uint (Nat.to_uint n).

(** [parts.join(sep)]. *)
Fixpoint join (sep : string) (parts : list string) : string :=
  match parts with
  | [] => EmptyString
  | [p] => p
  | p :: rest => p ++ sep ++ join sep rest
  end.

End Str.

(** A JavaScript object used as a map, and a Python [dict]: keys in insertion
    order, one entry per key. *)
Module Dict.

Section Dict.
Context {V : Type}.

Definition t := list (string * V).

Fixpoint get (k : string) (d : t) : option V :=
  match d with
  | [] => None
  | (k', v) :: d' => if String.eqb k k' then Some v else get k d'
  end.

(** [k in d]. *)
Definition mem (k : string) (d : t) : bool :=
  match get k d with Some _ => true | None => false end.

(** [d[k] = v]: an existing key keeps its place. *)
Fixpoint set (k : string) (v : V) (d : t) : t :=
  match d with
  | [] => [(k, v)]
  | (k', v') :: d' =>
      if String.eqb k k' then (k, v) :: d' else (k', v') :: set k v d'
  end.

(** Truth value of a dict: non-empty. *)
Definition truthy (d : t) : bool :=
  match d with [] => false | _ :: _ => true end.

End Dict.

Arguments t : clear implicits.

End Dict.

(** ** The element classifier, [JS_GET_CLICKABLE_ELEMENTS] *)

Module Classifier.

(** What [element.getBoundingClientRect()] returns. *)
Record DOMRect := mkRect {
  rect_x : Q; rect_y : Q; rect_width : Q; rect_height : Q;
  rect_top : Q; rect_right : Q; rect_bottom : Q; rect_left : Q
}.

(** The three properties of [window.getComputedStyle(element)] that are read. *)
Record ComputedStyle := mkStyle {
  visibility : string; display : string; opacity : string
}.

(** A DOM element: what the script reads from it, and its element children.
    [attributes] is the NamedNodeMap in its order; [onclick] tells whether the
    handler property is set. *)
#[warnings="-register-all"]
Inductive Element := mkElement {
  tagName : string;
  attributes : Dict.t string;
  onclick : bool;
  value : string;
  placeholder : string;
  innerText : string;
  textContent : string;
  boundingClientRect : DOMRect;
  computedStyle : ComputedStyle;
  children : list Element
}.

Record Window := mkWindow { innerWidth : Z; innerHeight : Z }.

(** [element.getAttribute(name)], [None] for JavaScript's null. *)
Definition getAttribute (name : string) (element : Element) : option string :=
  Dict.get name (attributes element).

(** [element.id] reflects the id attribute, the empty string without one. *)
Definition element_id (element : Element) : string :=
  match getAttribute "id" element with Some v => v | None => EmptyString end.

(** Truth value of a string or null. *)
Definition truthy (v : option string) : bool :=
  match v with Some s => Str.nonempty s | None => false end.

(** Truth value of a number: not zero. *)
Definition nonzero (q : Q) : bool := negb (Qeq_bool q 0).

(** [a || b] on strings. *)
Definition or_else (a b : string) : string := if Str.nonempty a then a else b.

(** Every element has [getBoundingClientRect], so the first test of the
    script never returns. *)
Definition isVisible (element : Element) : bool :=
  let rect := boundingClientRect element in
  (nonzero (rect_top rect) || nonzero (rect_bottom rect)
   || nonzero (rect_width rect) || nonzero (rect_height rect))
  && negb (String.eqb (visibility (computedStyle element)) "hidden")
  && negb (String.eqb (display (computedStyle element)) "none")
  && negb (String.eqb (opacity (computedStyle element)) "0").

Definition rectInViewport (window : Window) (rect : DOMRect) : bool :=
  Qle_bool (inject_Z (-100)) (rect_top rect)
  && Qle_bool (inject_Z (-100)) (rect_left rect)
  && Qle_bool (rect_bottom rect) (inject_Z (innerHeight window + 100))
  && Qle_bool (rect_right rect) (inject_Z (innerWidth window + 100)).

Definition isInViewport (window : Window) (element : Element) : bool :=
  rectInViewport window (boundingClientRect element).

Definition includes (l : list string) (s : string) : bool :=
  existsb (String.eqb s) l.

Definition interactiveTags : list string :=
  ["a"; "button"; "input"; "select"; "textarea"; "details"; "summary"].

Definition interactiveRoles : list string :=
  ["button"; "link"; "checkbox"; "radio"; "tab"; "menuitem"].

Definition isInteractive (element : Element) : bool :=
  let tag := Str.toLowerCase (tagName element) in
  if includes interactiveTags tag then true
  else if match getAttribute "role" element with
          | Some role => Str.nonempty role && includes interactiveRoles role
          | None => false
          end then true
  else if onclick element
          || truthy (getAttribute "onclick" element)
          || truthy (getAttribute "ng-click" element)
          || truthy (getAttribute "@click" element) then true
  else if match getAttribute "tabindex" element with
          | Some t => Str.nonempty t && negb (String.eqb t "-1")
          | None => false
          end then true
  else match getAttribute "contenteditable" element with
       | Some c => String.eqb c "true"
       | None => false
       end.

Definition getElementText (element : Element) : string :=
  if String.eqb (Str.toLowerCase (tagName element)) "input"
  then or_else (value element) (or_else (placeholder element) EmptyString)
  else or_else (innerText element) (or_else (textContent element) EmptyString).

(** Where an element sits: for the element and then each ancestor up to the
    root element, the tag names of the element siblings before it and its own
    tag name.  The walk of [getXPath] over [parentNode] and [previousSibling]
    reads exactly this; siblings that are not elements are skipped there. *)
Record Crumb := mkCrumb { before : list string; tag : string }.

Definition Location := list Crumb.

(** The inner loop: [idx] counts the earlier siblings with the same tag. *)
Definition sameTagBefore (c : Crumb) : nat :=
  List.length (filter (String.eqb (tag c)) (before c)).

Definition pathPart (c : Crumb) : string :=
  let idx := sameTagBefore c in
  let pathIndex :=
    match idx with
    | O => EmptyString
    | S _ => "[" ++ Str.of_nat (idx + 1) ++ "]"
    end in
  Str.toLowerCase (tag c) ++ pathIndex.

(** The outer loop goes up and [unshift]s, so the part of the root comes
    first. *)
Definition pathParts (loc : Location) : list string :=
  fold_left (fun parts c => pathPart c :: parts) loc [].

(** [getXPath(element)] for an element that is not null, which is how
    [processElement] calls it: [id] is [element.id]. *)
Definition getXPath (id : string) (loc : Location) : string :=
  if Str.nonempty id
  then "//*[@id=" ++ Str.dquote ++ id ++ Str.dquote ++ "]"
  else "/" ++ Str.join "/" (pathParts loc).

(** One entry of [clickableElements]. *)
Record Descriptor := mkDescriptor {
  d_index : Z;
  d_tagName : string;
  d_text : string;
  d_attributes : Dict.t string;
  d_xpath : string;
  d_isVisible : bool;
  d_isInViewport : bool;
  d_boundingBox : Dict.t Q
}.

Definition boundingBox (rect : DOMRect) : Dict.t Q :=
  [("x", rect_x rect); ("y", rect_y rect);
   ("width", rect_width rect); ("height", rect_height rect);
   ("top", rect_top rect); ("right", rect_right rect);
   ("bottom", rect_bottom rect); ("left", rect_left rect)].

(** The loop over [element.attributes]. *)
Definition copyAttributes (element : Element) : Dict.t string :=
  fold_left (fun acc kv => Dict.set (fst kv) (snd kv) acc) (attributes element) [].

(** The object pushed for a qualifying element standing at [loc]. *)
Definition describe (window : Window) (i : Z) (loc : Location)
    (element : Element) : Descriptor :=
  let tagName := Str.toLowerCase (tagName element) in
  let text := Str.trim (getElementText element) in
  let isInView := isInViewport window element in
  let rect := boundingClientRect element in
  {| d_index := i;
     d_tagName := tagName;
     d_text := Str.prefix_of_length 100 text;
     d_attributes := copyAttributes element;
     d_xpath := getXPath (element_id element) loc;
     d_isVisible := true;
     d_isInViewport := isInView;
     d_boundingBox := boundingBox rect |}.

(** The two variables the closure [processElement] updates. *)
Record Pass := mkPass { clickableElements : list Descriptor; index : Z }.

Definition push (window : Window) (loc : Location) (element : Element)
    (st : Pass) : Pass :=
  {| clickableElements :=
       clickableElements st ++ [describe window (index st) loc element];
     index := index st + 1 |}.

(** The loop [for (const child of element.children)], with the tags of the
    children already passed. *)
Section Children.
Variable processChild : list string -> Element -> Pass -> Pass.

Fixpoint forEachChild (prev : list string) (cs : list Element) (st : Pass)
    : Pass :=
  match cs with
  | [] => st
  | child :: rest =>
      forEachChild (tagName child :: prev) rest (processChild prev child st)
  end.

End Children.

(** [processElement(element)], for an element that is not null; [above] is the
    location of its parent and [prev] the tags of its earlier siblings. *)
Fixpoint processElement (window : Window) (above : Location)
    (prev : list string) (element : Element) (st : Pass) : Pass :=
  if negb (isVisible element) then st
  else
    let loc := mkCrumb prev (tagName element) :: above in
    let st1 :=
      if isInteractive element then push window loc element st else st in
    forEachChild (processElement window loc) [] (children element) st1.

(** The document as the script meets it: [document.body], which may be null,
    with the tags of the siblings before it and the location of its parent. *)
Record Document := mkDocument {
  body : option Element;
  body_prev : list string;
  body_above : Location
}.

Definition JS_GET_CLICKABLE_ELEMENTS (window : Window) (document : Document)
    : list Descriptor :=
  let start := {| clickableElements := []; index := 0 |} in
  match body document with
  | None => clickableElements start
  | Some b =>
      clickableElements
        (processElement window (body_above document) (body_prev document) b start)
  end.

(** *** The traversal in the words of the specification

    A pre-order walk from the body that does not enter an invisible element;
    the interactive elements met are the ones discovered, and the k-th of them
    is described with index k. *)

Section Walk.
Variable walkChild : list string -> Element -> list (Location * Element).

Fixpoint walkChildren (prev : list string) (cs : list Element)
    : list (Location * Element) :=
  match cs with
  | [] => []
  | child :: rest =>
      walkChild prev child ++ walkChildren (tagName child :: prev) rest
  end.

End Walk.

Fixpoint preorder_visible (above : Location) (prev : list string)
    (element : Element) : list (Location * Element) :=
  if negb (isVisible element) then []
  else
    let loc := mkCrumb prev (tagName element) :: above in
    (loc, element) :: walkChildren (preorder_visible loc) [] (children element).

Definition interactive_only (l : list (Location * Element))
    : list (Location * Element) :=
  filter (fun le => isInteractive (snd le)) l.

Definition discovered (document : Document) : list (Location * Element) :=
  match body document with
  | None => []
  | Some b =>
      interactive_only
        (preorder_visible (body_above document) (body_prev document) b)
  end.

Fixpoint numbered (window : Window) (i : Z) (l : list (Location * Element))
    : list Descriptor :=
  match l with
  | [] => []
  | le :: l' => describe window i (fst le) (snd le) :: numbered window (i + 1) l'
  end.

End Classifier.

(** ** The element model *)

Module Model.

Record ElementInfo := mkElementInfo {
  index : Z;
  tag_name : string;
  text : string;
  attributes : Dict.t string;
  xpath : string;
  is_visible : bool;
  is_in_viewport : bool;
  bounding_box : Dict.t Q
}.

Record PageAnalysis := mkPageAnalysis {
  url : string;
  title : string;
  timestamp : string;
  elements : list ElementInfo
}.

(** The values [json.dump] writes: the dict built by [to_dict] is a tree of
    these. *)
#[warnings="-register-all"]
Inductive json :=
| JNull
| JBool (b : bool)
| JInt (z : Z)
| JNumber (q : Q)
| JString (s : string)
| JArray (items : list json)
| JObject (members : Dict.t json).

Definition dict_to_json {V : Type} (f : V -> json) (d : Dict.t V) : json :=
  JObject (map (fun kv => (fst kv, f (snd kv))) d).

(** [ElementInfo.to_dict]: [asdict] lists the fields in declaration order and
    copies the two dicts. *)
Definition ElementInfo_to_dict (self : ElementInfo) : json :=
  JObject
    [("index", JInt (index self));
     ("tag_name", JString (tag_name self));
     ("text", JString (text self));
     ("attributes", dict_to_json JString (attributes self));
     ("xpath", JString (xpath self));
     ("is_visible", JBool (is_visible self));
     ("is_in_viewport", JBool (is_in_viewport self));
     ("bounding_box", dict_to_json JNumber (bounding_box self))].

(** [PageAnalysis.to_dict], the document [save_to_file] dumps. *)
Definition PageAnalysis_to_dict (self : PageAnalysis) : json :=
  JObject
    [("url", JString (url self));
     ("title", JString (title self));
     ("timestamp", JString (timestamp self));
     ("elements", JArray (map ElementInfo_to_dict (elements self)))].

(** *** Reading the document back *)

Definition as_int (j : json) : option Z :=
  match j with JInt z => Some z | _ => None end.
Definition as_number (j : json) : option Q :=
  match j with JNumber q => Some q | _ => None end.
Definition as_string (j : json) : option string :=
  match j with JString s => Some s | _ => None end.
Definition as_bool (j : json) : option bool :=
  match j with JBool b => Some b | _ => None end.
Definition as_array (j : json) : option (list json) :=
  match j with JArray l => Some l | _ => None end.
Definition as_object (j : json) : option (Dict.t json) :=
  match j with JObject m => Some m | _ => None end.

Definition obind {A B : Type} (o : option A) (f : A -> option B) : option B :=
  match o with Some a => f a | None => None end.

Notation "'let?' x ':=' o 'in' k" := (obind o (fun x => k))
  (at level 10, x name, o at level 100, k at level 200).

Fixpoint traverse {A B : Type} (f : A -> option B) (l : list A) : option (list B) :=
  match l with
  | [] => Some []
  | a :: l' =>
      let? b := f a in
      let? bs := traverse f l' in
      Some (b :: bs)
  end.

Definition field {V : Type} (name : string) (read : json -> option V)
    (members : Dict.t json) : option V :=
  let? j := Dict.get name members in read j.

Definition as_dict {V : Type} (read : json -> option V) (j : json)
    : option (Dict.t V) :=
  let? members := as_object j in
  traverse (fun kv => let? v := read (snd kv) in Some (fst kv, v)) members.

(** Modelled from the spec: the repository has no reader for the document it
    writes.  This one follows the shape the spec gives for the output JSON
    document, an object per element with the members index, tag_name, text,
    attributes, xpath, is_visible, is_in_viewport and bounding_box. *)
Definition ElementInfo_of_json (j : json) : option ElementInfo :=
  let? m := as_object j in
  let? i := field "index" as_int m in
  let? tg := field "tag_name" as_string m in
  let? tx := field "text" as_string m in
  let? at_ := field "attributes" (as_dict as_string) m in
  let? xp := field "xpath" as_string m in
  let? vis := field "is_visible" as_bool m in
  let? inv := field "is_in_viewport" as_bool m in
  let? bb := field "bounding_box" (as_dict as_number) m in
  Some (mkElementInfo i tg tx at_ xp vis inv bb).

(** Modelled from the spec: the element sequence of a parsed document, the
    member elements of the top-level object, read in order. *)
Definition elements_of_json (j : json) : option (list ElementInfo) :=
  let? m := as_object j in
  let? items := field "elements" as_array m in
  traverse ElementInfo_of_json items.

End Model.

(** ** The session controller, [WebScraper] *)

Module Controller.

Import Model.

(** The scripts handed to [page.evaluate]: the classifier, the two inline
    XPath scripts of [highlight_element], and [JS_HIGHLIGHT_ELEMENT]. *)
Inductive Script :=
| GetClickableElements
| XPathFound
| XPathStyle
| HighlightElement.

Inductive Arg := AStr (s : string) | AInt (z : Z).

(** What the controller asks of the page: [page.click], [page.mouse.click]
    and [page.evaluate]. *)
Inductive Request :=
| Click (selector : string)
| MouseClick (x y : Q)
| Evaluate (script : Script) (args : list Arg).

(** Python values a call hands back. *)
Inductive Value := VNone | VBool (b : bool).

Definition truth (v : Value) : bool :=
  match v with VNone => false | VBool b => b end.

Inductive Exn :=
| ValueError (message : string)
| KeyError (key : string)
| AttributeError
| EngineError (message : string).

Inductive Reply := Raises (e : Exn) | Returns (v : Value).

(** The browser behind the automation API.  [respond] gives, for a request on
    a page, the reply and the page afterwards; [window] and [document] are the
    page as an in-page script sees it. *)
Record Engine := mkEngine {
  Page : Type;
  respond : Request -> Page -> Reply * Page;
  window : Page -> Classifier.Window;
  document : Page -> Classifier.Document
}.

Inductive LogRecord :=
| InfoFound (count : nat)
| WarningNotFound (element_index : Z)
| InfoClicked (element_index : Z) (how : string)
| WarningCouldNotClick (element_index : Z)
| ErrorClicking (element_index : Z) (e : Exn).

Inductive Result (A : Type) := Ok (a : A) | Raise (e : Exn).
Arguments Ok {A} a.
Arguments Raise {A} e.

Section Session.

Variable engine : Engine.

(** [self.page], the requests sent so far (oldest first) and the log. *)
Record World := mkWorld {
  page : option (Page engine);
  requests : list Request;
  log : list LogRecord
}.

(** Computations that read and change the world and may raise. *)
Definition M (A : Type) : Type := World -> Result A * World.

Definition ret {A : Type} (a : A) : M A := fun w => (Ok a, w).

Definition raise {A : Type} (e : Exn) : M A := fun w => (Raise e, w).

Definition bind {A B : Type} (m : M A) (k : A -> M B) : M B :=
  fun w =>
    match m w with
    | (Ok a, w') => k a w'
    | (Raise e, w') => (Raise e, w')
    end.

(** [try: m  except Exception as e: handler e]. *)
Definition try_except {A : Type} (m : M A) (handler : Exn -> M A) : M A :=
  fun w =>
    match m w with
    | (Ok a, w') => (Ok a, w')
    | (Raise e, w') => handler e w'
    end.

Notation "x <- m ;; k" := (bind m (fun x => k))
  (at level 61, m at next level, right associativity).
Notation "m ;; k" := (bind m (fun _ => k))
  (at level 61, right associativity).

Definition logger (r : LogRecord) : M unit :=
  fun w => (Ok tt, mkWorld (page w) (requests w) (log w ++ [r])).

Definition self_page : M (option (Page engine)) := fun w => (Ok (page w), w).

(** One awaited call on [self.page]; on [None] the attribute access fails. *)
Definition call (r : Request) : M Value :=
  fun w =>
    match page w with
    | None => (Raise AttributeError, w)
    | Some p =>
        let (reply, p') := respond engine r p in
        let w' := mkWorld (Some p') (requests w ++ [r]) (log w) in
        match reply with
        | Raises e => (Raise e, w')
        | Returns v => (Ok v, w')
        end
    end.

(** [d[key]] on a dict. *)
Definition subscript {V : Type} (d : Dict.t V) (key : string) : M V :=
  match Dict.get key d with
  | Some v => ret v
  | None => raise (KeyError key)
  end.

(** [next((e for e in elements if e.index == element_index), None)]. *)
Definition element_at (element_index : Z) (elements : list ElementInfo)
    : option ElementInfo :=
  find (fun e => Z.eqb (index e) element_index) elements.

Definition ElementInfo_of_data (data : Classifier.Descriptor) : ElementInfo :=
  {| index := Classifier.d_index data;
     tag_name := Classifier.d_tagName data;
     text := Classifier.d_text data;
     attributes := Classifier.d_attributes data;
     xpath := Classifier.d_xpath data;
     is_visible := Classifier.d_isVisible data;
     is_in_viewport := Classifier.d_isInViewport data;
     bounding_box := Classifier.d_boundingBox data |}.

(** [page.evaluate(JS_GET_CLICKABLE_ELEMENTS)]: the engine decides whether the
    call comes back, the script decides what it brings. *)
Definition evaluate_classifier : M (list Classifier.Descriptor) :=
  p <- self_page ;;
  _ <- call (Evaluate GetClickableElements []) ;;
  match p with
  | Some p =>
      ret (Classifier.JS_GET_CLICKABLE_ELEMENTS (window engine p) (document engine p))
  | None => raise AttributeError
  end.

Definition find_clickable_elements : M (list ElementInfo) :=
  p <- self_page ;;
  match p with
  | None => raise (ValueError "No page is open. Call open_page() first.")
  | Some _ =>
      elements_data <- evaluate_classifier ;;
      let elements := map ElementInfo_of_data elements_data in
      logger (InfoFound (List.length elements)) ;;
      ret elements
  end.

Definition highlight_element (element_index : Z) (elements : list ElementInfo)
    : M Value :=
  p <- self_page ;;
  match p with
  | None => ret (VBool false)
  | Some _ =>
      match element_at element_index elements with
      | None =>
          logger (WarningNotFound element_index) ;;
          ret (VBool false)
      | Some element =>
          match Dict.get "id" (attributes element) with
          | Some id =>
              let selector := "#" ++ id in
              if Str.nonempty selector
              then
                result <- call (Evaluate HighlightElement
                                  [AStr selector; AInt element_index]) ;;
                ret result
              else ret (VBool false)
          | None =>
              if Str.nonempty (xpath element)
              then
                selector <- call (Evaluate XPathFound [AStr (xpath element)]) ;;
                if truth selector
                then
                  call (Evaluate XPathStyle [AStr (xpath element)]) ;;
                  ret (VBool true)
                else ret (VBool false)
              else ret (VBool false)
          end
      end
  end.

(** The body of the [try] in [click_element]. *)
Definition click_attempt (element_index : Z) (element : ElementInfo) : M bool :=
  if Str.nonempty (xpath element)
  then
    call (Click ("xpath=" ++ xpath element)) ;;
    logger (InfoClicked element_index "XPath") ;;
    ret true
  else
    match Dict.get "id" (attributes element) with
    | Some id =>
        call (Click ("#" ++ id)) ;;
        logger (InfoClicked element_index "ID selector") ;;
        ret true
    | None =>
        if Dict.truthy (bounding_box element)
        then
          bx <- subscript (bounding_box element) "x" ;;
          bw <- subscript (bounding_box element) "width" ;;
          let x := (bx + bw / 2)%Q in
          by_ <- subscript (bounding_box element) "y" ;;
          bh <- subscript (bounding_box element) "height" ;;
          let y := (by_ + bh / 2)%Q in
          call (MouseClick x y) ;;
          logger (InfoClicked element_index "coordinates") ;;
          ret true
        else
          logger (WarningCouldNotClick element_index) ;;
          ret false
    end.

Definition click_element (element_index : Z) (elements : list ElementInfo)
    : M bool :=
  p <- self_page ;;
  match p with
  | None => ret false
  | Some _ =>
      match element_at element_index elements with
      | None =>
          logger (WarningNotFound element_index) ;;
          ret false
      | Some element =>
          try_except
            (click_attempt element_index element)
            (fun e =>
               logger (ErrorClicking element_index e) ;;
               ret false)
      end
  end.

End Session.

Arguments mkWorld {engine} _ _ _.
Arguments page {engine} _.
Arguments requests {engine} _.
Arguments log {engine} _.

(** *** The fallback chain in the words of the specification

    An ordered list of strategies, each with the request it would send for an
    element when it applies. *)

Inductive Strategy := ByXPath | ByIdSelector | ByCoordinates.

Definition strategy_order : list Strategy :=
  [ByXPath; ByIdSelector; ByCoordinates].

Definition strategy_name (s : Strategy) : string :=
  match s with
  | ByXPath => "XPath"
  | ByIdSelector => "ID selector"
  | ByCoordinates => "coordinates"
  end.

(** The centre of a captured bounding box. *)
Definition center (box : Dict.t Q) : option (Q * Q) :=
  match Dict.get "x" box, Dict.get "width" box,
        Dict.get "y" box, Dict.get "height" box with
  | Some x, Some w, Some y, Some h => Some (x + w / 2, y + h / 2)%Q
  | _, _, _, _ => None
  end.

Definition strategy_request (element : ElementInfo) (s : Strategy)
    : option Request :=
  match s with
  | ByXPath =>
      if Str.nonempty (xpath element)
      then Some (Click ("xpath=" ++ xpath element)) else None
  | ByIdSelector =>
      option_map (fun id => Click ("#" ++ id))
                 (Dict.get "id" (attributes element))
  | ByCoordinates =>
      option_map (fun c => MouseClick (fst c) (snd c))
                 (center (bounding_box element))
  end.

Fixpoint first_applicable (element : ElementInfo) (l : list Strategy)
    : option (Strategy * Request) :=
  match l with
  | [] => None
  | s :: l' =>
      match strategy_request element s with
      | Some r => Some (s, r)
      | None => first_applicable element l'
      end
  end.

End Controller.

(** ** Sample pages and engines *)

Module Examples.

Import Classifier Model Controller.

Definition box (x y w h : Q) : DOMRect :=
  mkRect x y w h y (x + w)%Q (y + h)%Q x.

Definition shown : ComputedStyle := mkStyle "visible" "block" "1".
Definition concealed : ComputedStyle := mkStyle "visible" "none" "1".

Definition node (tag : string) (attrs : Dict.t string) (label : string)
    (r : DOMRect) (style : ComputedStyle) (cs : list Element) : Element :=
  mkElement tag attrs false EmptyString EmptyString label label r style cs.

(** A body with a link, a division holding a button, a hidden button, a text
    input and a submit button that has an id. *)
Definition sample_body : Element :=
  node "BODY" [] EmptyString (box 0 0 1280 2000) shown
    [ node "A" [("href", "/home")] " Home " (box 10 10 80 20) shown [];
      node "DIV" [("class", "bar")] "Go" (box 0 40 1280 60) shown
        [ node "BUTTON" [] "Go" (box 10 50 60 30) shown [] ];
      node "BUTTON" [("id", "ghost")] "Ghost" (box 0 0 0 0) concealed [];
      node "INPUT" [("type", "text"); ("name", "q")] EmptyString
           (box 10 120 200 24) shown [];
      node "BUTTON" [("id", "submit"); ("type", "submit")] "Send"
           (box 10 1500 100 30) shown [] ].

Definition sample_document : Document :=
  mkDocument (Some sample_body) ["HEAD"] [mkCrumb [] "HTML"].

Definition sample_window : Window := mkWindow 1280 800.

(** An engine with one page state whose calls all come back. *)
Definition obliging : Engine :=
  mkEngine unit
    (fun r p =>
       match r with
       | Evaluate XPathFound _ => (Returns (VBool true), p)
       | Evaluate HighlightElement _ => (Returns (VBool true), p)
       | _ => (Returns VNone, p)
       end)
    (fun _ => sample_window)
    (fun _ => sample_document).

(** An engine whose XPath locator clicks time out; its page state counts the
    requests it has received. *)
Definition stubborn : Engine :=
  mkEngine nat
    (fun r p =>
       match r with
       | Click selector =>
           if String.prefix "xpath=" selector
           then (Raises (EngineError "Timeout 30000ms exceeded."), S p)
           else (Returns VNone, S p)
       | _ => (Returns VNone, S p)
       end)
    (fun _ => sample_window)
    (fun _ => sample_document).

(** The snapshot a pass over the sample page returns. *)
Definition sample_elements : list ElementInfo :=
  map ElementInfo_of_data
    (JS_GET_CLICKABLE_ELEMENTS sample_window sample_document).

Definition unopened (engine : Engine) : World engine :=
  @mkWorld engine None [] [].

Definition opened (engine : Engine) (p : Page engine) : World engine :=
  @mkWorld engine (Some p) [] [].

(** The XPath the classifier records for the submit button. *)
Definition submit_xpath : string :=
  "//*[@id=" ++ Str.dquote ++ "submit" ++ Str.dquote ++ "]".

(** A hand-made record with every means of clicking at hand. *)
Definition link_record : ElementInfo :=
  mkElementInfo 0 "a" "Home" [("id", "home"); ("href", "/home")]
    "/html/body/a" true true
    [("x", 10%Q); ("y", 10%Q); ("width", 80%Q); ("height", 20%Q)].

(** A record with neither XPath nor id. *)
Definition bare_record : ElementInfo :=
  mkElementInfo 5 "span" "More" [("class", "more")] EmptyString true true
    [("x", 10%Q); ("y", 10%Q); ("width", 80%Q); ("height", 20%Q)].

End Examples.

(** ** Trees without their hidden parts *)

Module Pruning.

Import Classifier.

(** The tree with everything below an invisible element cut off. *)
Fixpoint prune (element : Element) : Element :=
  match element with
  | mkElement tg attrs oc v ph it tc r cs kids =>
      mkElement tg attrs oc v ph it tc r cs
        (if isVisible element then map prune kids else [])
  end.

Definition prune_document (document : Document) : Document :=
  mkDocument (option_map prune (body document)) (body_prev document)
    (body_above document).

End Pruning.

(** ** Kinds of request *)

Module Kinds.

Import Controller.

(** Requests that act on the page as a user would. *)
Definition is_click (r : Request) : Prop :=
  match r with
  | Click _ | MouseClick _ _ => True
  | Evaluate _ _ => False
  end.

(** Requests that run a script in the page. *)
Definition is_evaluate (r : Request) : Prop :=
  match r with
  | Evaluate _ _ => True
  | Click _ | MouseClick _ _ => False
  end.

End Kinds.

(** ** Python strings and printing *)

(** Python's [str] methods used by the command loop and by [__str__], on
    strings whose characters are code points below 256. *)
Module Py.

(** [str.isspace] of one character: tab to carriage return, the four
    separators 28 to 31, space, next line (133) and no-break space (160). *)
Definition isspace (c : ascii) : bool :=
  let n := nat_of_ascii c in
  (Nat.leb 9 n && Nat.leb n 13) || (Nat.leb 28 n && Nat.leb n 32)
  || Nat.eqb n 133 || Nat.eqb n 160.

(** [str.lower] of one character: A to Z, and the capital letters 192 to 222
    except the multiplication sign 215. *)
Definition lower_char (c : ascii) : ascii :=
  let n := nat_of_ascii c in
  if (Nat.leb 65 n && Nat.leb n 90)
     || (Nat.leb 192 n && Nat.leb n 222 && negb (Nat.eqb n 215))
  then ascii_of_nat (n + 32) else c.

Fixpoint lower (s : string) : string :=
  match s with
  | EmptyString => EmptyString
  | String c s' => String (lower_char c) (lower s')
  end.

Fixpoint lstrip (s : string) : string :=
  match s with
  | EmptyString => EmptyString
  | String c s' => if isspace c then lstrip s' else s
  end.

Definition strip (s : string) : string :=
  Str.reverse (lstrip (Str.reverse (lstrip s))).

(** [s.split()]: the runs of characters that are not white space. [tok] is
    the run being read. *)
Fixpoint split_from (tok : string) (s : string) : list string :=
  match s with
  | EmptyString => if Str.nonempty tok then [tok] else []
  | String c s' =>
      if isspace c
      then if Str.nonempty tok then tok :: split_from EmptyString s'
           else split_from EmptyString s'
      else split_from (tok ++ String c EmptyString) s'
  end.

Definition split (s : string) : list string := split_from EmptyString s.

(** [str(n)] for an integer. *)
Definition str_of_int (z : Z) : string := NilEmpty.string_of_int (Z.to_int z).

(** [str(n)] for a length. *)
Definition str_of_len (n : nat) : string := str_of_int (Z.of_nat n).

(** The line feed. *)
Definition nl : string := String "010"%char EmptyString.

End Py.

Module Display.

Import Model.

(** What is written to the terminal: a [print] call with its text, a [print]
    of a label and a number (whose digits Python's float formatting decides),
    or the prompt of an [input] call. *)
Inductive Output :=
| Print (text : string)
| PrintNumber (label : string) (v : Q)
| Prompt (text : string).

Definition shown_attributes : list string :=
  ["id"; "class"; "name"; "role"; "type"; "href"].

(** [k in ['id', 'class', 'name', 'role', 'type', 'href']]. *)
Definition is_shown (k : string) : bool :=
  existsb (String.eqb k) shown_attributes.

(** [f'{k}="{v}"']. *)
Definition attribute_text (kv : string * string) : string :=
  fst kv ++ "=" ++ Str.dquote ++ snd kv ++ Str.dquote.

(** [ElementInfo.__str__]. *)
Definition ElementInfo_str (self : ElementInfo) : string :=
  let attrs :=
    Str.join " "
      (map attribute_text
         (filter (fun kv => is_shown (fst kv)) (attributes self))) in
  "[" ++ Py.str_of_int (index self) ++ "] <" ++ tag_name self ++ " " ++ attrs
  ++ ">" ++ text self ++ "</" ++ tag_name self ++ ">".

(** [PageAnalysis.print_elements]: the [print] calls it makes, in order. *)
Definition print_elements (self : PageAnalysis) : list Output :=
  [Print (Py.nl ++ "=== Clickable Elements on " ++ url self ++ " ===");
   Print ("Page Title: " ++ title self);
   Print ("Analysis Time: " ++ timestamp self);
   Print ("Total Elements: " ++ Py.str_of_len (List.length (elements self))
          ++ Py.nl)]
  ++ map (fun elem => Print (ElementInfo_str elem)) (elements self).

(** The [print] calls of the branch [s] of the command loop. *)
Definition element_details (element : ElementInfo) : list Output :=
  [Print (Py.nl ++ "Element Details:");
   Print ("  Index: " ++ Py.str_of_int (index element));
   Print ("  Tag: " ++ tag_name element);
   Print ("  Text: " ++ text element);
   Print ("  XPath: " ++ xpath element);
   Print "  Attributes:"]
  ++ map (fun kv => Print ("    " ++ fst kv ++ ": " ++ snd kv))
         (attributes element)
  ++ [Print "  Bounding Box:"]
  ++ map (fun kv => PrintNumber ("    " ++ fst kv ++ ": ") (snd kv))
         (bounding_box element).

End Display.

(** ** The life of a scraper: context manager, analysis, command loop, main *)

Module Runtime.

Import Model Controller Display.

(** Calls on the page beyond those of [Controller.Request]. *)
Inductive PageCall :=
| SetViewportSize (width height : Z)
| Goto (url wait_until : string)
| WaitForLoadState (state : string).

(** Calls on the automation library, the browser and the file system. *)
Inductive ProcCall :=
| PlaywrightStart
| ChromiumLaunch (headless : bool)
| BrowserClose
| PlaywrightStop
| OpenForWriting (filename : string).

(** What a run does outside the page requests and the terminal, in order. *)
Inductive Event :=
| OnProc (c : ProcCall)
| NewPage
| OnPage (c : PageCall)
| ReadTitle
| Sleep (seconds : Z)
| LogInfo (message : string).

(** What a call can raise: an exception of the controller, or the
    [EOFError] of [input] at the end of the input. *)
Inductive Failure := PyError (e : Exn) | EOFError.

Inductive Outcome (A : Type) := Done (a : A) | Failed (f : Failure).
Arguments Done {A} a.
Arguments Failed {A} f.

(** Everything the source relies on and does not define: the engine behind
    the page, the process of the automation library and the browser with the
    file system ([None] for a call that returns), the pages the browser
    opens, the clock formatted by [strftime], and the builtin [int] on a
    token ([None] where it raises [ValueError]). *)
Record Driver := mkDriver {
  engine : Engine;
  Proc : Type;
  proc_call : ProcCall -> Proc -> option Exn * Proc;
  new_page : Proc -> (Exn + Page engine) * Proc;
  page_call : PageCall -> Page engine -> option Exn * Page engine;
  page_title : Page engine -> (Exn + string) * Page engine;
  page_url : Page engine -> string;
  now : Proc -> string;
  int : string -> option Z
}.

(** The arguments [argparse] hands to [main]. *)
Record Args := mkArgs {
  arg_url : string;
  arg_headless : bool;
  arg_output : option string;
  arg_interact : bool
}.

Inductive Control := Continue | Break.

Section Run.

Variable driver : Driver.

(** A [WebScraper] and its surroundings: the flag [headless]; whether the
    attribute [playwright] exists; whether [self.browser] is set; [self.page]
    with the requests and the log of the controller; the process; the events
    so far; the terminal; the files written. *)
Record Scraper := mkScraper {
  headless : bool;
  playwright : bool;
  browser : bool;
  world : World (engine driver);
  proc : Proc driver;
  trace : list Event;
  console : list Output;
  files : list (string * json)
}.

(** [WebScraper(headless)]. *)
Definition WebScraper_init (headless : bool) (pr : Proc driver) : Scraper :=
  mkScraper headless false false (mkWorld None [] []) pr [] [] [].

Definition R (A : Type) : Type := Scraper -> Outcome A * Scraper.

Definition rret {A : Type} (a : A) : R A := fun s => (Done a, s).

Definition rraise {A : Type} (f : Failure) : R A := fun s => (Failed f, s).

Definition rbind {A B : Type} (m : R A) (k : A -> R B) : R B :=
  fun s =>
    match m s with
    | (Done a, s') => k a s'
    | (Failed f, s') => (Failed f, s')
    end.

Notation "x <- m ;; k" := (rbind m (fun x => k))
  (at level 61, m at next level, right associativity).
Notation "m ;; k" := (rbind m (fun _ => k))
  (at level 61, right associativity).

Definition self : R Scraper := fun s => (Done s, s).

Definition set_world (w : World (engine driver)) (s : Scraper) : Scraper :=
  mkScraper (headless s) (playwright s) (browser s) w (proc s) (trace s)
    (console s) (files s).

Definition set_proc (pr : Proc driver) (s : Scraper) : Scraper :=
  mkScraper (headless s) (playwright s) (browser s) (world s) pr (trace s)
    (console s) (files s).

Definition record (ev : Event) (s : Scraper) : Scraper :=
  mkScraper (headless s) (playwright s) (browser s) (world s) (proc s)
    (trace s ++ [ev]) (console s) (files s).

Definition write (out : list Output) (s : Scraper) : Scraper :=
  mkScraper (headless s) (playwright s) (browser s) (world s) (proc s)
    (trace s) (console s ++ out) (files s).

(** A computation of the controller, run on [self]. *)
Definition lift {A : Type} (m : M (engine driver) A) : R A :=
  fun s =>
    match m (world s) with
    | (Ok a, w') => (Done a, set_world w' s)
    | (Raise e, w') => (Failed (PyError e), set_world w' s)
    end.

Definition print (text : string) : R unit :=
  fun s => (Done tt, write [Print text] s).

Definition print_all (out : list Output) : R unit :=
  fun s => (Done tt, write out s).

Definition log_info (message : string) : R unit :=
  fun s => (Done tt, record (LogInfo message) s).

Definition on_proc (c : ProcCall) : R unit :=
  fun s =>
    let (r, pr') := proc_call driver c (proc s) in
    let s' := record (OnProc c) (set_proc pr' s) in
    match r with
    | None => (Done tt, s')
    | Some e => (Failed (PyError e), s')
    end.

(** An awaited call on [self.page]; on [None] the attribute access fails. *)
Definition on_page (c : PageCall) : R unit :=
  fun s =>
    match page (world s) with
    | None => (Failed (PyError AttributeError), s)
    | Some p =>
        let (r, p') := page_call driver c p in
        let w' := mkWorld (Some p') (requests (world s)) (log (world s)) in
        let s' := record (OnPage c) (set_world w' s) in
        match r with
        | None => (Done tt, s')
        | Some e => (Failed (PyError e), s')
        end
    end.

(** [await self.page.title()]. *)
Definition read_title : R string :=
  fun s =>
    match page (world s) with
    | None => (Failed (PyError AttributeError), s)
    | Some p =>
        let (r, p') := page_title driver p in
        let w' := mkWorld (Some p') (requests (world s)) (log (world s)) in
        let s' := record ReadTitle (set_world w' s) in
        match r with
        | inr t => (Done t, s')
        | inl e => (Failed (PyError e), s')
        end
    end.

(** [self.page.url]. *)
Definition read_url : R string :=
  fun s =>
    match page (world s) with
    | None => (Failed (PyError AttributeError), s)
    | Some p => (Done (page_url driver p), s)
    end.

(** [__aenter__]. *)
Definition aenter : R unit :=
  on_proc PlaywrightStart ;;
  (fun s => (Done tt,
             mkScraper (headless s) true (browser s) (world s) (proc s)
               (trace s) (console s) (files s))) ;;
  s <- self ;;
  on_proc (ChromiumLaunch (headless s)) ;;
  (fun s => (Done tt,
             mkScraper (headless s) (playwright s) true (world s) (proc s)
               (trace s) (console s) (files s))).

(** [__aexit__]. *)
Definition aexit : R unit :=
  s <- self ;;
  (if browser s then on_proc BrowserClose else rret tt) ;;
  s <- self ;;
  (if playwright s then on_proc PlaywrightStop else rret tt).

(** [self.page = await self.browser.new_page()]: without a browser the
    attribute access fails; when the call raises nothing is assigned. *)
Definition assign_new_page : R unit :=
  fun s =>
    if browser s
    then
      let (r, pr') := new_page driver (proc s) in
      let s' := record NewPage (set_proc pr' s) in
      match r with
      | inr p =>
          (Done tt,
           set_world (mkWorld (Some p) (requests (world s)) (log (world s))) s')
      | inl e => (Failed (PyError e), s')
      end
    else (Failed (PyError AttributeError), s).

(** [open_page]; the page it returns is [self.page]. *)
Definition open_page (url : string) : R unit :=
  assign_new_page ;;
  on_page (SetViewportSize 1280 800) ;;
  log_info ("Navigating to " ++ url) ;;
  on_page (Goto url "networkidle") ;;
  on_page (WaitForLoadState "domcontentloaded") ;;
  (fun s => (Done tt, record (Sleep 2) s)).

(** [analyze_page]. *)
Definition analyze_page (url : string) : R PageAnalysis :=
  open_page url ;;
  title <- read_title ;;
  s <- self ;;
  let timestamp := now driver (proc s) in
  elements <- lift (find_clickable_elements (engine driver)) ;;
  rret (mkPageAnalysis url title timestamp elements).

(** [PageAnalysis.save_to_file]. *)
Definition save_to_file (analysis : PageAnalysis) (filename : string) : R unit :=
  on_proc (OpenForWriting filename) ;;
  (fun s => (Done tt,
             mkScraper (headless s) (playwright s) (browser s) (world s)
               (proc s) (trace s) (console s)
               (files s ++ [(filename, PageAnalysis_to_dict analysis)]))) ;;
  log_info ("Analysis saved to " ++ filename).

(** The body of the [while] loop of [interactive_mode], after [input] has
    returned [line]. *)
Definition command (line : string) (elements : list ElementInfo) : R Control :=
  let command := Py.strip line in
  if String.eqb (Py.lower command) "q" then rret Break
  else if String.eqb (Py.lower command) "l"
  then
    print_all (map (fun element => Print (ElementInfo_str element)) elements) ;;
    rret Continue
  else
    match Py.split command with
    | [action; index_str] =>
        match int driver index_str with
        | None =>
            print ("Invalid index: " ++ index_str) ;;
            rret Continue
        | Some index =>
            match element_at index elements with
            | None =>
                print ("Element with index " ++ Py.str_of_int index
                       ++ " not found") ;;
                rret Continue
            | Some element =>
                if String.eqb (Py.lower action) "h"
                then
                  lift (highlight_element (engine driver) index elements) ;;
                  print ("Highlighted element " ++ Py.str_of_int index) ;;
                  rret Continue
                else if String.eqb (Py.lower action) "c"
                then
                  result <- lift (click_element (engine driver) index elements) ;;
                  if result : bool
                  then
                    print ("Clicked element " ++ Py.str_of_int index) ;;
                    on_page (WaitForLoadState "networkidle") ;;
                    new_url <- read_url ;;
                    print ("Page navigated to: " ++ new_url) ;;
                    rret Continue
                  else
                    print ("Failed to click element " ++ Py.str_of_int index) ;;
                    rret Continue
                else if String.eqb (Py.lower action) "s"
                then
                  print_all (element_details element) ;;
                  rret Continue
                else
                  print ("Unknown action: " ++ action) ;;
                  rret Continue
            end
        end
    | _ =>
        print "Invalid command format. Use 'h <index>', 'c <index>', or 's <index>'" ;;
        rret Continue
    end.

(** [input(prompt)] when the input still holds a line, and at its end. *)
Definition prompt : R unit :=
  fun s => (Done tt, write [Prompt (Py.nl ++ "Enter command: ")] s).

(** The [while True] loop over the lines of the input. *)
Fixpoint command_loop (lines : list string) (elements : list ElementInfo)
    : R unit :=
  match lines with
  | [] => prompt ;; rraise EOFError
  | line :: rest =>
      prompt ;;
      c <- command line elements ;;
      match c with
      | Break => rret tt
      | Continue => command_loop rest elements
      end
  end.

(** [interactive_mode], reading the lines [lines]. *)
Definition interactive_mode (lines : list string) (elements : list ElementInfo)
    : R unit :=
  print_all
    [Print (Py.nl ++ "=== Interactive Mode ===");
     Print "Commands:";
     Print "  h <index> - Highlight element";
     Print "  c <index> - Click element";
     Print "  s <index> - Show element details";
     Print "  l - List all elements";
     Print "  q - Quit interactive mode"] ;;
  command_loop lines elements.

(** [async with self: body]: [__aexit__] runs after the body however it
    ends and does not swallow its exception; an exception of [__aexit__]
    itself takes its place.  When [__aenter__] raises, neither runs. *)
Definition async_with {A : Type} (body : R A) : R A :=
  aenter ;;
  (fun s =>
     match body s with
     | (Done a, s1) => (aexit ;; rret a) s1
     | (Failed f, s1) =>
         match aexit s1 with
         | (Done _, s2) => (Failed f, s2)
         | (Failed f', s2) => (Failed f', s2)
         end
     end).

(** The block under [async with] in [main]. *)
Definition main_body (args : Args) (lines : list string) : R unit :=
  analysis <- analyze_page (arg_url args) ;;
  print_all (print_elements analysis) ;;
  (match arg_output args with
   | Some filename =>
       if Str.nonempty filename then save_to_file analysis filename
       else rret tt
   | None => rret tt
   end) ;;
  if arg_interact args
  then interactive_mode lines (elements analysis)
  else rret tt.

(** [main], for parsed arguments, the lines of the input and the process it
    starts in. *)
Definition main (args : Args) (lines : list string) (pr : Proc driver)
    : Outcome unit * Scraper :=
  async_with (main_body args lines) (WebScraper_init (arg_headless args) pr).

End Run.

Arguments mkScraper {driver} _ _ _ _ _ _ _ _.
Arguments headless {driver} _.
Arguments playwright {driver} _.
Arguments browser {driver} _.
Arguments world {driver} _.
Arguments proc {driver} _.
Arguments trace {driver} _.
Arguments console {driver} _.
Arguments files {driver} _.

End Runtime.

(** ** Sample runs *)

Module Scenarios.

Import Model Controller Display Runtime Examples.

(** Plain decimal tokens as [int] reads them, for the sample drivers. *)
Definition decimal (token : string) : option Z :=
  option_map Z.of_int (NilZero.int_of_string token).

(** A driver over the obliging engine; [fails] tells which calls on the
    process raise, [offline] whether navigation raises.  The process state
    counts the calls made. *)
Definition sample_driver (fails : ProcCall -> bool) (offline : bool) : Driver :=
  mkDriver obliging nat
    (fun c n =>
       (if fails c then Some (EngineError "Target closed") else None, S n))
    (fun n => (inr tt, S n))
    (fun c p =>
       match c with
       | Goto _ _ =>
           (if offline then Some (EngineError "net::ERR_NAME_NOT_RESOLVED")
            else None, p)
       | _ => (None, p)
       end)
    (fun p => (inr "Sample page", p))
    (fun _ => "https://example.org/")
    (fun _ => "2024-05-01 12:00:00")
    decimal.

Definition nothing_fails (c : ProcCall) : bool := false.


Definition launch_fails (c : ProcCall) : bool :=
  match c with ChromiumLaunch _ => true | _ => false end.

Definition smooth : Driver := sample_driver nothing_fails false.

(** A driver over the stubborn engine, whose scripts return nothing. *)
Definition glum : Driver :=
  mkDriver stubborn nat
    (fun c n => (None, S n))
    (fun n => (inr 0%nat, S n))
    (fun c p => (None, S p))
    (fun p => (inr "Sample page", p))
    (fun _ => "https://example.org/")
    (fun _ => "2024-05-01 12:00:00")
    decimal.

(** A scraper inside its context with the sample page open. *)
Definition ready (driver : Driver) (p : Page (engine driver))
    (pr : Proc driver) : Scraper driver :=
  mkScraper false true true (mkWorld (Some p) [] []) pr [] [] [].

(** The calls that start and stop the library and the browser, in the order
    they were made; writing a file is not one of them. *)
Definition lifecycle (t : list Event) : list ProcCall :=
  flat_map (fun ev =>
              match ev with
              | OnProc (OpenForWriting _) => []
              | OnProc c => [c]
              | _ => []
              end) t.

Definition is_not_found (r : LogRecord) : Prop :=
  match r with WarningNotFound _ => True | _ => False end.

(** A computation respects the relation [P] between the state before and
    the state after, however it ends. *)
Definition keeps (driver : Driver)
    (P : Scraper driver -> Scraper driver -> Prop) {A : Type}
    (m : R driver A) : Prop :=
  forall s, P s (snd (m s)).



(** No file was written. *)
Definition unwritten {driver : Driver} (s s' : Scraper driver) : Prop :=
  files s' = files s.

(** The log grew, and not by a warning that an index was not found. *)
Definition logs_no_miss {driver : Driver} (s s' : Scraper driver) : Prop :=
  exists added,
    log (world s') = (log (world s) ++ added)%list /\
    Forall (fun r => ~ is_not_found r) added.

End Scenarios.

(** ** Facts about the classifier *)

Module ClassifierFacts.

Import Classifier.
Local Open Scope list_scope.

(** Induction over a DOM tree, with the property at hand for every child. *)
Section ElementInduction.

Variable P : Element -> Prop.
Hypothesis step :
  forall tg attrs oc v ph it tc r cs kids,
    Forall P kids -> P (mkElement tg attrs oc v ph it tc r cs kids).

Fixpoint Element_tree_ind (e : Element) : P e :=
  match e with
  | mkElement tg attrs oc v ph it tc r cs kids =>
      step tg attrs oc v ph it tc r cs kids
        ((fix all (l : list Element) : Forall P l :=
            match l with
            | [] => Forall_nil P
            | k :: l' => Forall_cons k (Element_tree_ind k) (all l')
            end) kids)
  end.

End ElementInduction.

(** The state after pushing the descriptions of [l], counting from the
    current index. *)
Definition pushed (window : Window) (st : Pass) (l : list (Location * Element))
    : Pass :=
  {| clickableElements := clickableElements st ++ numbered window (index st) l;
     index := index st + Z.of_nat (List.length l) |}.

Lemma pushed_nil window st : pushed window st [] = st.
Proof.
  destruct st as [ds i]. unfold pushed. simpl.
  now rewrite app_nil_r, Z.add_0_r.
Qed.

Lemma numbered_app window l1 l2 i :
  numbered window i (l1 ++ l2) =
  numbered window i l1 ++ numbered window (i + Z.of_nat (List.length l1)) l2.
Proof.
  revert i. induction l1 as [|le l1 IH]; intros i.
  - simpl. now rewrite Z.add_0_r.
  - cbn [app numbered List.length]. rewrite IH. cbn [app].
    do 3 f_equal. lia.
Qed.

Lemma pushed_app window st l1 l2 :
  pushed window (pushed window st l1) l2 = pushed window st (l1 ++ l2).
Proof.
  unfold pushed. cbn [clickableElements index].
  rewrite numbered_app, <- app_assoc, length_app, Nat2Z.inj_add.
  f_equal. lia.
Qed.

Lemma push_is_pushed window loc element st :
  push window loc element st = pushed window st [(loc, element)].
Proof. reflexivity. Qed.

Lemma interactive_only_app l1 l2 :
  interactive_only (l1 ++ l2) = interactive_only l1 ++ interactive_only l2.
Proof. apply filter_app. Qed.

(** The loop over the children pushes what the walk over them discovers. *)
Lemma forEachChild_pushes window loc kids :
  Forall (fun k => forall above prev st,
            processElement window above prev k st =
            pushed window st (interactive_only (preorder_visible above prev k)))
         kids ->
  forall prev st,
    forEachChild (processElement window loc) prev kids st =
    pushed window st
      (interactive_only (walkChildren (preorder_visible loc) prev kids)).
Proof.
  induction 1 as [|k kids Hk _ IH]; intros prev st.
  - simpl. now rewrite pushed_nil.
  - cbn [forEachChild walkChildren].
    rewrite Hk, IH, pushed_app, interactive_only_app. reflexivity.
Qed.

(** [processElement] pushes, in order, the interactive elements of the
    pre-order walk of the visible part of the tree. *)
Lemma processElement_pushes window element :
  forall above prev st,
    processElement window above prev element st =
    pushed window st (interactive_only (preorder_visible above prev element)).
Proof.
  induction element using Element_tree_ind.
  intros above prev st.
  cbn [processElement preorder_visible].
  destruct (isVisible _); cbn [negb].
  - cbn [children tagName].
    rewrite (forEachChild_pushes window _ kids H).
    unfold interactive_only at 2. cbn [filter snd].
    destruct (isInteractive _).
    + rewrite push_is_pushed, pushed_app. reflexivity.
    + reflexivity.
  - now rewrite pushed_nil.
Qed.

(** A pass returns the discovered elements, numbered from zero. *)
Lemma JS_GET_CLICKABLE_ELEMENTS_numbered window document :
  JS_GET_CLICKABLE_ELEMENTS window document =
  numbered window 0 (discovered document).
Proof.
  unfold JS_GET_CLICKABLE_ELEMENTS, discovered.
  destruct (body document) as [b|]; [|reflexivity].
  rewrite processElement_pushes. reflexivity.
Qed.

Lemma numbered_length window i l :
  List.length (numbered window i l) = List.length l.
Proof. revert i. induction l; intros i; simpl; auto. Qed.

Lemma numbered_index window l i :
  map d_index (numbered window i l) =
  map (fun k => i + Z.of_nat k) (seq 0 (List.length l)).
Proof.
  revert i. induction l as [|le l IH]; intros i.
  - reflexivity.
  - cbn [numbered map List.length seq]. rewrite IH, <- seq_shift, map_map.
    f_equal; [simpl; lia|]. apply map_ext. intros k. lia.
Qed.

Lemma numbered_visible window l i :
  Forall (fun d => d_isVisible d = true) (numbered window i l).
Proof. revert i. induction l; intros i; simpl; constructor; auto. Qed.

Lemma seq_of_nat_NoDup n : NoDup (map Z.of_nat (seq 0 n)).
Proof.
  apply Injective_map_NoDup; [|apply seq_NoDup].
  intros a b. apply Nat2Z.inj.
Qed.

Lemma numbered_described window l i d :
  In d (numbered window i l) ->
  exists k loc element, d = describe window k loc element.
Proof.
  revert i. induction l as [|le l IH]; intros i; simpl.
  - intros [].
  - intros [<-|Hin]; [now eexists _, _, _ | eauto].
Qed.

(** [getXPath] never returns the empty string: it returns the id form for an
    element with an id, and a path that starts with a slash otherwise. *)
Lemma getXPath_shape id loc :
  Str.nonempty (getXPath id loc) = true /\
  (getXPath id loc =
     ("//*[@id=" ++ Str.dquote ++ id ++ Str.dquote ++ "]")%string
   \/ getXPath id loc = ("/" ++ Str.join "/" (pathParts loc))%string).
Proof.
  unfold getXPath. destruct id; simpl; auto.
Qed.




End ClassifierFacts.

(** ** Facts about the element model *)

Module ModelFacts.

Import Model.

Lemma traverse_map {A B : Type} (f : B -> option A) (g : A -> B) (l : list A) :
  (forall a, f (g a) = Some a) -> traverse f (map g l) = Some l.
Proof.
  intros Hfg. induction l as [|a l IH]; simpl.
  - reflexivity.
  - rewrite Hfg. simpl. rewrite IH. reflexivity.
Qed.

Lemma as_dict_to_json {V : Type} (wr : V -> json) (rd : json -> option V)
    (d : Dict.t V) :
  (forall v, rd (wr v) = Some v) -> as_dict rd (dict_to_json wr d) = Some d.
Proof.
  intros Hrw. unfold as_dict, dict_to_json. simpl.
  induction d as [|[k v] d IH]; simpl.
  - reflexivity.
  - rewrite Hrw. simpl. rewrite IH. reflexivity.
Qed.

Lemma ElementInfo_of_json_to_dict (e : ElementInfo) :
  ElementInfo_of_json (ElementInfo_to_dict e) = Some e.
Proof.
  destruct e as [i tg tx ats xp vis inv bb].
  unfold ElementInfo_of_json, ElementInfo_to_dict, field.
  cbn -[as_dict dict_to_json].
  rewrite (as_dict_to_json JString as_string) by reflexivity.
  cbn -[as_dict dict_to_json].
  rewrite (as_dict_to_json JNumber as_number) by reflexivity.
  reflexivity.
Qed.

(** C8.  Reading back the document that [to_dict] builds for a page analysis
    gives the element sequence of the analysis: the same records in the same
    order, with every field and every entry of the two dicts unchanged. *)
Theorem elements_roundtrip (analysis : PageAnalysis) :
  elements_of_json (PageAnalysis_to_dict analysis) = Some (elements analysis).
Proof.
  unfold elements_of_json, PageAnalysis_to_dict, field. cbn.
  apply traverse_map, ElementInfo_of_json_to_dict.
Qed.

End ModelFacts.

(** ** Facts about the session controller *)

Module ControllerFacts.

Import Model Controller.
Local Open Scope list_scope.

Section Session.

Variable engine : Engine.

Lemma world_eta (w : World engine) : w = mkWorld (page w) (requests w) (log w).
Proof. now destruct w. Qed.

(** *** Finding the elements *)

Lemma find_clickable_elements_unopened reqs lg :
  find_clickable_elements engine (mkWorld None reqs lg) =
  (Raise (ValueError "No page is open. Call open_page() first."),
   mkWorld None reqs lg).
Proof. reflexivity. Qed.

(** A pass that returns converts what the script finds on the open page. *)
Lemma find_clickable_elements_returns (w w' : World engine) es :
  find_clickable_elements engine w = (Ok es, w') ->
  exists p,
    page w = Some p /\
    es = map ElementInfo_of_data
           (Classifier.JS_GET_CLICKABLE_ELEMENTS
              (window engine p) (document engine p)).
Proof.
  destruct w as [[p|] reqs lg]; [|discriminate].
  unfold find_clickable_elements, evaluate_classifier, bind, self_page, call,
    logger, ret. cbn [page requests log].
  destruct (respond engine _ p) as [[err|v] p']; [discriminate|].
  intros [= <- _]. now exists p.
Qed.

(** Enough for a pass to return: a page is open and the engine brings the
    script's value back. *)
Lemma find_clickable_elements_total p reqs lg v p' :
  respond engine (Evaluate GetClickableElements []) p = (Returns v, p') ->
  exists es w',
    find_clickable_elements engine (mkWorld (Some p) reqs lg) = (Ok es, w').
Proof.
  intros Hr.
  unfold find_clickable_elements, evaluate_classifier, bind, self_page, call,
    logger, ret. cbn [page requests log]. rewrite Hr.
  now eexists _, _.
Qed.

Lemma converted_index ds :
  map index (map ElementInfo_of_data ds) = map Classifier.d_index ds.
Proof. rewrite map_map. reflexivity. Qed.

(** *** Looking an index up *)

Lemma element_at_absent i els :
  (forall e, In e els -> index e <> i) -> element_at i els = None.
Proof.
  intros Habs. unfold element_at.
  destruct (find _ els) as [e|] eqn:E; [|reflexivity].
  apply find_some in E. destruct E as [Hin Heq].
  apply Z.eqb_eq in Heq. now apply Habs in Hin.
Qed.

(** *** One click *)

(** When a strategy applies, the body of the [try] sends the request of the
    first one that does, and nothing else. *)
Lemma click_attempt_applicable i e p reqs lg s r :
  first_applicable e strategy_order = Some (s, r) ->
  click_attempt engine i e (mkWorld (Some p) reqs lg) =
  match respond engine r p with
  | (Returns _, p') =>
      (Ok true,
       mkWorld (Some p') (reqs ++ [r]) (lg ++ [InfoClicked i (strategy_name s)]))
  | (Raises err, p') => (Raise err, mkWorld (Some p') (reqs ++ [r]) lg)
  end.
Proof.
  unfold first_applicable, strategy_order, strategy_request, click_attempt, center.
  destruct (Str.nonempty (xpath e)).
  - intros [= <- <-].
    unfold bind, call, logger, ret. cbn [page requests log].
    now destruct (respond engine _ p) as [[err|v] p'].
  - destruct (Dict.get "id" (attributes e)) as [id|]; cbn [option_map].
    + intros [= <- <-].
      unfold bind, call, logger, ret. cbn [page requests log].
      now destruct (respond engine _ p) as [[err|v] p'].
    + destruct (Dict.get "x" (bounding_box e)) as [x|] eqn:Ex; [|discriminate].
      destruct (Dict.get "width" (bounding_box e)) as [wd|] eqn:Ew;
        [|discriminate].
      destruct (Dict.get "y" (bounding_box e)) as [y|] eqn:Ey; [|discriminate].
      destruct (Dict.get "height" (bounding_box e)) as [h|] eqn:Eh;
        [|discriminate].
      cbn [option_map fst snd]. intros [= <- <-].
      destruct (bounding_box e) as [|kv bb]; [discriminate|].
      cbn [Dict.truthy]. unfold subscript. rewrite Ex, Ew, Ey, Eh.
      unfold bind, call, logger, ret. cbn [page requests log].
      now destruct (respond engine _ p) as [[err|v] p'].
Qed.

(** When none applies, nothing is sent and the body does not return true. *)
Lemma click_attempt_inapplicable i e p reqs lg :
  first_applicable e strategy_order = None ->
  exists res lg',
    click_attempt engine i e (mkWorld (Some p) reqs lg) =
    (res, mkWorld (Some p) reqs lg') /\ res <> Ok true.
Proof.
  unfold first_applicable, strategy_order, strategy_request, click_attempt, center.
  destruct (Str.nonempty (xpath e)); [discriminate|].
  destruct (Dict.get "id" (attributes e)) as [id|]; [discriminate|].
  cbn [option_map]. intros Hc.
  destruct (Dict.truthy (bounding_box e)).
  - unfold subscript, bind, raise, ret.
    destruct (Dict.get "x" (bounding_box e)) as [x|];
      [|eexists _, _; split; [reflexivity|discriminate]].
    destruct (Dict.get "width" (bounding_box e)) as [wd|];
      [|eexists _, _; split; [reflexivity|discriminate]].
    destruct (Dict.get "y" (bounding_box e)) as [y|];
      [|eexists _, _; split; [reflexivity|discriminate]].
    destruct (Dict.get "height" (bounding_box e)) as [h|];
      [discriminate|eexists _, _; split; [reflexivity|discriminate]].
  - unfold bind, logger, ret. cbn [page requests log].
    eexists _, _; split; [reflexivity|discriminate].
Qed.

Lemma click_element_found i els e p reqs lg :
  element_at i els = Some e ->
  click_element engine i els (mkWorld (Some p) reqs lg) =
  try_except engine (click_attempt engine i e)
    (fun err => bind engine (logger engine (ErrorClicking i err))
                  (fun _ => ret engine false))
    (mkWorld (Some p) reqs lg).
Proof.
  intros Hat. unfold click_element, bind at 1, self_page. cbn [page].
  now rewrite Hat.
Qed.

(** The whole call, when some strategy applies: one request, and the reply to
    it decides the result. *)
Lemma click_element_applicable i els e p reqs lg s r :
  element_at i els = Some e ->
  first_applicable e strategy_order = Some (s, r) ->
  click_element engine i els (mkWorld (Some p) reqs lg) =
  match respond engine r p with
  | (Returns _, p') =>
      (Ok true,
       mkWorld (Some p') (reqs ++ [r]) (lg ++ [InfoClicked i (strategy_name s)]))
  | (Raises err, p') =>
      (Ok false,
       mkWorld (Some p') (reqs ++ [r]) (lg ++ [ErrorClicking i err]))
  end.
Proof.
  intros Hat Hfa. rewrite (click_element_found _ _ _ _ _ _ Hat).
  unfold try_except. rewrite (click_attempt_applicable _ _ _ _ _ _ _ Hfa).
  now destruct (respond engine r p) as [[err|v] p'].
Qed.

Lemma click_element_inapplicable i els e p reqs lg :
  element_at i els = Some e ->
  first_applicable e strategy_order = None ->
  exists lg',
    click_element engine i els (mkWorld (Some p) reqs lg) =
    (Ok false, mkWorld (Some p) reqs lg').
Proof.
  intros Hat Hfa. rewrite (click_element_found _ _ _ _ _ _ Hat).
  destruct (click_attempt_inapplicable i e p reqs lg Hfa)
    as (res & lg' & Hrun & Hres).
  unfold try_except. rewrite Hrun.
  destruct res as [[|]|err].
  - now contradiction Hres.
  - now exists lg'.
  - unfold bind, logger, ret. cbn [page requests log]. now eexists.
Qed.

Lemma nonempty_true s : s <> EmptyString -> Str.nonempty s = true.
Proof. destruct s; [congruence|reflexivity]. Qed.


Lemma first_applicable_xpath e :
  Str.nonempty (xpath e) = true ->
  first_applicable e strategy_order =
  Some (ByXPath, Click ("xpath=" ++ xpath e)%string).
Proof.
  intros Hx. unfold first_applicable, strategy_order, strategy_request.
  now rewrite Hx.
Qed.

Lemma first_applicable_id e id :
  Str.nonempty (xpath e) = false ->
  Dict.get "id" (attributes e) = Some id ->
  first_applicable e strategy_order =
  Some (ByIdSelector, Click ("#" ++ id)%string).
Proof.
  intros Hx Hid. unfold first_applicable, strategy_order, strategy_request.
  now rewrite Hx, Hid.
Qed.


Lemma click_element_applicable_requests i els e p reqs lg s r :
  element_at i els = Some e ->
  first_applicable e strategy_order = Some (s, r) ->
  requests (snd (click_element engine i els (mkWorld (Some p) reqs lg))) =
  reqs ++ [r].
Proof.
  intros Hat Hfa. rewrite (click_element_applicable _ _ _ _ _ _ _ _ Hat Hfa).
  now destruct (respond engine r p) as [[err|v] p'].
Qed.

Lemma click_element_applicable_success i els e p reqs lg s r v :
  element_at i els = Some e ->
  first_applicable e strategy_order = Some (s, r) ->
  fst (respond engine r p) = Returns v ->
  fst (click_element engine i els (mkWorld (Some p) reqs lg)) = Ok true.
Proof.
  intros Hat Hfa. rewrite (click_element_applicable _ _ _ _ _ _ _ _ Hat Hfa).
  destruct (respond engine r p) as [[err|v'] p']; [discriminate|reflexivity].
Qed.

End Session.

End ControllerFacts.

(** ** The classification pass seen from the controller *)

Module PassFacts.

Import Model Controller ClassifierFacts ControllerFacts Examples.
Local Open Scope list_scope.

(** C1.  Whenever a classification pass returns, the records it returns are
    the descriptions of the interactive elements met by the pre-order walk of
    the visible part of the DOM, in that order, numbered from zero: their
    indices are 0, 1, ..., n-1 for the n records returned, without repetition.
    The world the pass starts from is arbitrary, so the count starts at zero
    in every pass. *)
Theorem find_clickable_elements_indices
    (engine : Engine) (w w' : World engine) (es : list ElementInfo) :
  find_clickable_elements engine w = (Ok es, w') ->
  exists p,
    page w = Some p /\
    es = map ElementInfo_of_data
           (Classifier.numbered (window engine p) 0
              (Classifier.discovered (document engine p))) /\
    map index es = map Z.of_nat (seq 0 (List.length es)) /\
    NoDup (map index es).
Proof.
  intros Hrun.
  destruct (find_clickable_elements_returns engine w w' es Hrun) as (p & Hp & ->).
  exists p. split; [exact Hp|].
  rewrite JS_GET_CLICKABLE_ELEMENTS_numbered.
  assert (Hidx :
    map index
      (map ElementInfo_of_data
         (Classifier.numbered (window engine p) 0
            (Classifier.discovered (document engine p)))) =
    map Z.of_nat
      (seq 0 (List.length
         (map ElementInfo_of_data
            (Classifier.numbered (window engine p) 0
               (Classifier.discovered (document engine p))))))).
  { rewrite converted_index, numbered_index, length_map, numbered_length.
    apply map_ext. intros k. lia. }
  split; [reflexivity|]. split; [exact Hidx|].
  rewrite Hidx. apply seq_of_nat_NoDup.
Qed.

(** The pass over the sample page returns four records, numbered 0 to 3. *)
Lemma find_clickable_elements_indices_witness :
  map index sample_elements = [0; 1; 2; 3].
Proof.
  assert (Hrun : find_clickable_elements obliging (opened obliging tt) =
                 (Ok sample_elements,
                  @mkWorld obliging (Some tt)
                    [Evaluate GetClickableElements []] [InfoFound 4]))
    by (vm_compute; reflexivity).
  destruct (find_clickable_elements_indices obliging _ _ _ Hrun)
    as (p & _ & _ & Hidx & _).
  rewrite Hidx. vm_compute. reflexivity.
Defined.

(** C10.  Every record a classification pass returns has its visibility flag
    set: the script writes the constant true, and the controller copies it. *)
Theorem find_clickable_elements_visible
    (engine : Engine) (w w' : World engine) (es : list ElementInfo) :
  find_clickable_elements engine w = (Ok es, w') ->
  Forall (fun e => is_visible e = true) es.
Proof.
  intros Hrun.
  destruct (find_clickable_elements_returns engine w w' es Hrun) as (p & _ & ->).
  rewrite JS_GET_CLICKABLE_ELEMENTS_numbered.
  apply Forall_map. cbn [ElementInfo_of_data is_visible].
  apply numbered_visible.
Qed.

Lemma find_clickable_elements_visible_witness :
  Forall (fun e => is_visible e = true) sample_elements.
Proof.
  apply (find_clickable_elements_visible obliging (opened obliging tt)
           (@mkWorld obliging (Some tt)
              [Evaluate GetClickableElements []] [InfoFound 4])).
  vm_compute. reflexivity.
Defined.

(** C9.  Every record a classification pass returns has a non-empty XPath,
    either the id form or a path that starts with a slash.  So whenever
    [click_element] resolves an index to such a record on an open page, the
    one request it sends is the click through the XPath locator; the id
    selector is never used for it. *)
Theorem classified_elements_click_by_xpath
    (engine : Engine) (w w' : World engine) (es : list ElementInfo) :
  find_clickable_elements engine w = (Ok es, w') ->
  forall e, In e es ->
    xpath e <> EmptyString /\
    ((exists id,
        xpath e = ("//*[@id=" ++ Str.dquote ++ id ++ Str.dquote ++ "]")%string)
     \/ (exists rest, xpath e = ("/" ++ rest)%string)) /\
    (forall (engine2 : Engine) (w2 : World engine2) p2 i els,
        page w2 = Some p2 ->
        element_at i els = Some e ->
        requests (snd (click_element engine2 i els w2)) =
        requests w2 ++ [Click ("xpath=" ++ xpath e)%string]).
Proof.
  intros Hrun e Hin.
  destruct (find_clickable_elements_returns engine w w' es Hrun) as (p & _ & ->).
  rewrite JS_GET_CLICKABLE_ELEMENTS_numbered in Hin.
  apply in_map_iff in Hin. destruct Hin as (d & <- & Hd).
  apply numbered_described in Hd. destruct Hd as (k & loc & element & ->).
  cbn [ElementInfo_of_data xpath Classifier.describe Classifier.d_xpath].
  destruct (getXPath_shape (Classifier.element_id element) loc) as [Hne Hshape].
  split; [|split].
  - intros Heq. rewrite Heq in Hne. discriminate.
  - destruct Hshape as [-> | ->]; [left | right]; eauto.
  - intros engine2 [pg reqs lg] p2 i els Hp Hat. cbn [page] in Hp. subst pg.
    cbn [requests].
    apply (click_element_applicable_requests engine2 i els
             (ElementInfo_of_data
                (Classifier.describe (window engine p) k loc element))
             p2 reqs lg ByXPath).
    + exact Hat.
    + apply first_applicable_xpath. exact Hne.
Qed.

(** On the sample page the submit button has an id, and clicking its record
    goes through the XPath locator. *)
Lemma classified_elements_click_by_xpath_witness :
  requests (snd (click_element obliging 3 sample_elements (opened obliging tt)))
  = [Click ("xpath=" ++ submit_xpath)%string].
Proof.
  assert (Hrun : find_clickable_elements obliging (opened obliging tt) =
                 (Ok sample_elements,
                  @mkWorld obliging (Some tt)
                    [Evaluate GetClickableElements []] [InfoFound 4]))
    by (vm_compute; reflexivity).
  assert (Hin : In (nth 3 sample_elements Examples.bare_record) sample_elements)
    by (vm_compute; tauto).
  destruct (classified_elements_click_by_xpath obliging _ _ _ Hrun _ Hin)
    as (_ & _ & Hclick).
  rewrite (Hclick obliging (opened obliging tt) tt 3 sample_elements
             eq_refl eq_refl).
  vm_compute. reflexivity.
Defined.

End PassFacts.

(** ** Highlighting and clicking by index *)

Module ClickFacts.

Import Model Controller ControllerFacts Examples.
Local Open Scope list_scope.

(** C2, as the specification words it, fails.  The record has an XPath, an
    id and a bounding box; the engine lets the XPath click time out and would
    have accepted the click on the id selector.  The call sends the XPath
    click, logs the error and returns false: no other strategy is tried. *)
Lemma click_element_error_no_fall_through :
  click_element stubborn 0 [link_record] (opened stubborn 0%nat) =
  (Ok false,
   @mkWorld stubborn (Some 1%nat)
     [Click "xpath=/html/body/a"]
     [ErrorClicking 0 (EngineError "Timeout 30000ms exceeded.")])
  /\ strategy_request link_record ByIdSelector = Some (Click "#home")
  /\ fst (respond stubborn (Click "#home") 1%nat) = Returns VNone
  /\ ~ In (Click "#home")
         (requests (snd (click_element stubborn 0 [link_record]
                           (opened stubborn 0%nat)))).
Proof.
  vm_compute. repeat split.
  intros [H|[]]. discriminate H.
Qed.

(** C2, amended.  When the request of the strategy that applies raises, the
    error is caught and logged and the whole call returns false: that request
    is the only one sent, and nothing is raised to the caller. *)
Theorem click_element_error_is_failure
    (engine : Engine) (w : World engine) (p p' : Page engine)
    (i : Z) (els : list ElementInfo) (e : ElementInfo)
    (s : Strategy) (r : Request) (err : Exn) :
  page w = Some p ->
  element_at i els = Some e ->
  first_applicable e strategy_order = Some (s, r) ->
  respond engine r p = (Raises err, p') ->
  click_element engine i els w =
  (Ok false,
   mkWorld (Some p') (requests w ++ [r]) (log w ++ [ErrorClicking i err])).
Proof.
  destruct w as [pg reqs lg]. cbn [page requests log].
  intros -> Hat Hfa Hr.
  rewrite (click_element_applicable engine _ _ _ _ _ _ _ _ Hat Hfa), Hr.
  reflexivity.
Qed.

Lemma click_element_error_is_failure_witness :
  click_element stubborn 0 [link_record] (opened stubborn 0%nat) =
  (Ok false,
   @mkWorld stubborn (Some 1%nat)
     ([] ++ [Click "xpath=/html/body/a"])
     ([] ++ [ErrorClicking 0 (EngineError "Timeout 30000ms exceeded.")])).
Proof.
  apply (click_element_error_is_failure stubborn (opened stubborn 0%nat)
           0%nat 1%nat 0 [link_record] link_record ByXPath);
    reflexivity.
Defined.



(** C4, as the specification words it, fails.  In the snapshot of the sample
    page the record with index 3 has the id submit; clicking it goes through
    the XPath locator, and the id selector is not used. *)
Lemma click_element_with_id_uses_xpath :
  fst (find_clickable_elements obliging (opened obliging tt))
  = Ok sample_elements
  /\ option_map attributes (element_at 3 sample_elements)
     = Some [("id", "submit"); ("type", "submit")]
  /\ click_element obliging 3 sample_elements (opened obliging tt)
     = (Ok true,
        @mkWorld obliging (Some tt)
          [Click ("xpath=" ++ submit_xpath)%string]
          [InfoClicked 3 "XPath"])
  /\ ~ In (Click "#submit")
         (requests (snd (click_element obliging 3 sample_elements
                           (opened obliging tt)))).
Proof.
  vm_compute. repeat split.
  intros [H|[]]. discriminate H.
Qed.

(** C4, amended.  For a snapshot whose record at index 3 has the id submit,
    the call on an open page sends one request: the click through the XPath
    locator when the record has an XPath, and the click on the selector
    #submit only when its XPath is empty.  When that request comes back the
    call returns true; no mouse click is sent. *)
Theorem click_element_with_id
    (engine : Engine) (w : World engine) (p : Page engine)
    (els : list ElementInfo) (e : ElementInfo) :
  page w = Some p ->
  element_at 3 els = Some e ->
  Dict.get "id" (attributes e) = Some "submit"%string ->
  let out := click_element engine 3 els w in
  let r := if Str.nonempty (xpath e)
           then Click ("xpath=" ++ xpath e)%string
           else Click "#submit" in
  requests (snd out) = requests w ++ [r] /\
  (forall v, fst (respond engine r p) = Returns v -> fst out = Ok true).
Proof.
  destruct w as [pg reqs lg]. cbn [page requests]. intros -> Hat Hid. cbv zeta.
  destruct (Str.nonempty (xpath e)) eqn:Hx.
  - pose proof (first_applicable_xpath _ Hx) as Hfa. split.
    + exact (click_element_applicable_requests engine _ _ _ _ _ _ _ _ Hat Hfa).
    + intros v Hr.
      exact (click_element_applicable_success engine _ _ _ _ _ _ _ _ _
               Hat Hfa Hr).
  - pose proof (first_applicable_id _ _ Hx Hid) as Hfa. split.
    + exact (click_element_applicable_requests engine _ _ _ _ _ _ _ _ Hat Hfa).
    + intros v Hr.
      exact (click_element_applicable_success engine _ _ _ _ _ _ _ _ _
               Hat Hfa Hr).
Qed.

Lemma click_element_with_id_witness :
  requests (snd (click_element obliging 3 sample_elements (opened obliging tt)))
  = [] ++ [Click ("xpath=" ++ submit_xpath)%string]
  /\ fst (click_element obliging 3 sample_elements (opened obliging tt))
     = Ok true.
Proof.
  destruct (click_element_with_id obliging (opened obliging tt) tt
              sample_elements (nth 3 sample_elements bare_record)
              eq_refl eq_refl eq_refl) as [Hreq Hok].
  split.
  - exact Hreq.
  - apply (Hok VNone). reflexivity.
Defined.

(** C5, as the specification words it, fails.  On a session with no page
    open, highlighting or clicking an index that the snapshot does hold
    returns false; nothing is raised. *)
Lemma unopened_session_does_not_raise :
  highlight_element obliging 0 [link_record] (unopened obliging)
  = (Ok (VBool false), unopened obliging)
  /\ click_element obliging 0 [link_record] (unopened obliging)
     = (Ok false, unopened obliging)
  /\ (forall err,
        fst (highlight_element obliging 0 [link_record] (unopened obliging))
        <> Raise err)
  /\ (forall err,
        fst (click_element obliging 0 [link_record] (unopened obliging))
        <> Raise err).
Proof.
  repeat split; intros err H; discriminate H.
Qed.

(** C5, amended.  On a session with no page open, [highlight_element] and
    [click_element] return false without raising; they send nothing to the
    browser and log nothing. *)
Theorem unopened_session_returns_false
    (engine : Engine) (reqs : list Request) (lg : list LogRecord)
    (i : Z) (els : list ElementInfo) :
  let w := @mkWorld engine None reqs lg in
  highlight_element engine i els w = (Ok (VBool false), w) /\
  click_element engine i els w = (Ok false, w).
Proof. split; reflexivity. Qed.

(** C6.  When no record of the snapshot carries the requested index, both
    operations return false without raising; the page is as it was and no
    request has been sent.  On an open page a warning is logged. *)
Theorem missing_index_returns_false
    (engine : Engine) (w : World engine) (i : Z) (els : list ElementInfo) :
  (forall e, In e els -> index e <> i) ->
  exists lg',
    (lg' = log w \/ lg' = log w ++ [WarningNotFound i]) /\
    highlight_element engine i els w =
      (Ok (VBool false), mkWorld (page w) (requests w) lg') /\
    click_element engine i els w =
      (Ok false, mkWorld (page w) (requests w) lg').
Proof.
  intros Habs. apply element_at_absent in Habs.
  destruct w as [[p|] reqs lg]; cbn [page requests log].
  - exists (lg ++ [WarningNotFound i]).
    unfold highlight_element, click_element, bind, self_page. cbn [page].
    rewrite Habs. auto.
  - exists lg. auto.
Qed.

(** No record of the sample snapshot has index 7. *)
Lemma missing_index_returns_false_witness :
  fst (highlight_element obliging 7 sample_elements (opened obliging tt))
  = Ok (VBool false)
  /\ fst (click_element obliging 7 sample_elements (opened obliging tt))
     = Ok false
  /\ page (snd (click_element obliging 7 sample_elements (opened obliging tt)))
     = Some tt
  /\ requests
       (snd (click_element obliging 7 sample_elements (opened obliging tt)))
     = [].
Proof.
  destruct (missing_index_returns_false obliging (opened obliging tt) 7
              sample_elements) as (lg' & Hlg & Hh & Hc).
  - vm_compute. intros e H.
    repeat (destruct H as [<-|H]; [discriminate|]). destruct H.
  - rewrite Hh, Hc. repeat split.
Defined.

End ClickFacts.

(** ** More about the records of a pass *)

Module RecordFacts.

Import Classifier Model Controller ClassifierFacts ControllerFacts Examples.
Local Open Scope list_scope.

Lemma substring_prefix_length n s :
  (String.length (substring 0 n s) <= n)%nat.
Proof.
  revert s. induction n as [|n IH]; intros [|c s]; simpl; try lia.
  specialize (IH s). lia.
Qed.

(** Every record a pass returns describes some element at some location. *)
Lemma pass_records_described
    (engine : Engine) (w w' : World engine) (es : list ElementInfo) :
  find_clickable_elements engine w = (Ok es, w') ->
  exists p,
    page w = Some p /\
    forall e, In e es ->
      exists k loc element,
        e = ElementInfo_of_data (describe (window engine p) k loc element).
Proof.
  intros Hrun.
  destruct (find_clickable_elements_returns engine w w' es Hrun) as (p & Hp & ->).
  exists p. split; [exact Hp|]. intros e Hin.
  rewrite JS_GET_CLICKABLE_ELEMENTS_numbered in Hin.
  apply in_map_iff in Hin. destruct Hin as (d & <- & Hd).
  apply numbered_described in Hd. destruct Hd as (k & loc & element & ->).
  now exists k, loc, element.
Qed.

Lemma pass_index_list
    (engine : Engine) (w w' : World engine) (es : list ElementInfo) :
  find_clickable_elements engine w = (Ok es, w') ->
  map index es = map Z.of_nat (seq 0 (List.length es)).
Proof.
  intros Hrun.
  destruct (find_clickable_elements_returns engine w w' es Hrun) as (p & _ & ->).
  rewrite JS_GET_CLICKABLE_ELEMENTS_numbered.
  rewrite converted_index, numbered_index, length_map, numbered_length.
  apply map_ext. intros k. lia.
Qed.





(** X1.  The text of every record a pass returns has at most 100
    characters. *)
Theorem pass_text_at_most_100
    (engine : Engine) (w w' : World engine) (es : list ElementInfo) :
  find_clickable_elements engine w = (Ok es, w') ->
  Forall (fun e => (String.length (text e) <= 100)%nat) es.
Proof.
  intros Hrun. apply Forall_forall. intros e Hin.
  destruct (pass_records_described engine w w' es Hrun) as (p & _ & Hd).
  destruct (Hd e Hin) as (k & loc & element & ->).
  cbn [ElementInfo_of_data text describe d_text].
  apply substring_prefix_length.
Qed.

Lemma pass_text_at_most_100_witness :
  Forall (fun e => (String.length (text e) <= 100)%nat) sample_elements.
Proof.
  apply (pass_text_at_most_100 obliging (opened obliging tt)
           (@mkWorld obliging (Some tt)
              [Evaluate GetClickableElements []] [InfoFound 4])).
  vm_compute. reflexivity.
Defined.

(** X2.  The bounding box of every record a pass returns has the eight
    entries x, y, width, height, top, right, bottom, left, in this order, so
    its centre is defined: the coordinate strategy would apply to it. *)
Theorem pass_box_complete
    (engine : Engine) (w w' : World engine) (es : list ElementInfo) :
  find_clickable_elements engine w = (Ok es, w') ->
  Forall (fun e =>
            map fst (bounding_box e) =
            ["x"; "y"; "width"; "height"; "top"; "right"; "bottom"; "left"]
              %string
            /\ exists x y,
                 strategy_request e ByCoordinates = Some (MouseClick x y))
         es.
Proof.
  intros Hrun. apply Forall_forall. intros e Hin.
  destruct (pass_records_described engine w w' es Hrun) as (p & _ & Hd).
  destruct (Hd e Hin) as (k & loc & element & ->).
  split; [reflexivity|]. now eexists _, _.
Qed.

Lemma pass_box_complete_witness :
  Forall (fun e =>
            map fst (bounding_box e) =
            ["x"; "y"; "width"; "height"; "top"; "right"; "bottom"; "left"]
              %string
            /\ exists x y,
                 strategy_request e ByCoordinates = Some (MouseClick x y))
         sample_elements.
Proof.
  apply (pass_box_complete obliging (opened obliging tt)
           (@mkWorld obliging (Some tt)
              [Evaluate GetClickableElements []] [InfoFound 4])).
  vm_compute. reflexivity.
Defined.

(** X3.  The viewport flag of a record agrees with the box stored beside it:
    it is set exactly when the stored top and left are at least -100 and the
    stored bottom and right are at most the height and the width of the
    window plus 100. *)
Theorem pass_viewport_flag_from_box
    (engine : Engine) (w w' : World engine) (es : list ElementInfo) :
  find_clickable_elements engine w = (Ok es, w') ->
  exists p,
    page w = Some p /\
    Forall (fun e =>
              exists t l b r,
                Dict.get "top" (bounding_box e) = Some t /\
                Dict.get "left" (bounding_box e) = Some l /\
                Dict.get "bottom" (bounding_box e) = Some b /\
                Dict.get "right" (bounding_box e) = Some r /\
                (is_in_viewport e = true <->
                 (inject_Z (-100) <= t /\ inject_Z (-100) <= l /\
                  b <= inject_Z (innerHeight (window engine p) + 100) /\
                  r <= inject_Z (innerWidth (window engine p) + 100))%Q))
           es.
Proof.
  intros Hrun.
  destruct (pass_records_described engine w w' es Hrun) as (p & Hp & Hd).
  exists p. split; [exact Hp|]. apply Forall_forall. intros e Hin.
  destruct (Hd e Hin) as (k & loc & element & ->).
  exists (rect_top (boundingClientRect element)),
         (rect_left (boundingClientRect element)),
         (rect_bottom (boundingClientRect element)),
         (rect_right (boundingClientRect element)).
  repeat (split; [reflexivity|]).
  cbn [ElementInfo_of_data is_in_viewport describe d_isInViewport].
  unfold isInViewport, rectInViewport.
  rewrite !andb_true_iff, !Qle_bool_iff. tauto.
Qed.

Lemma pass_viewport_flag_from_box_witness :
  exists p,
    page (opened obliging tt) = Some p /\
    Forall (fun e =>
              exists t l b r,
                Dict.get "top" (bounding_box e) = Some t /\
                Dict.get "left" (bounding_box e) = Some l /\
                Dict.get "bottom" (bounding_box e) = Some b /\
                Dict.get "right" (bounding_box e) = Some r /\
                (is_in_viewport e = true <->
                 (inject_Z (-100) <= t /\ inject_Z (-100) <= l /\
                  b <= inject_Z (innerHeight (window obliging p) + 100) /\
                  r <= inject_Z (innerWidth (window obliging p) + 100))%Q))
           sample_elements.
Proof.
  apply (pass_viewport_flag_from_box obliging (opened obliging tt)
           (@mkWorld obliging (Some tt)
              [Evaluate GetClickableElements []] [InfoFound 4])).
  vm_compute. reflexivity.
Defined.



End RecordFacts.

(** ** More about paths, lookups, clicks and highlights *)

Module PathFacts.

Import Classifier Examples.

Lemma append_assoc (a b c : string) : ((a ++ b) ++ c = a ++ (b ++ c))%string.
Proof. induction a as [|x a IH]; simpl; [reflexivity|now rewrite IH]. Qed.

Lemma pathParts_rev (loc : Location) (acc : list string) :
  fold_left (fun parts c => pathPart c :: parts) loc acc =
  (rev (map pathPart loc) ++ acc)%list.
Proof.
  revert acc. induction loc as [|c loc IH]; intros acc; cbn [fold_left map rev].
  - reflexivity.
  - rewrite IH, <- app_assoc. reflexivity.
Qed.

Lemma join_snoc (sep x : string) (l : list string) :
  l <> [] ->
  Str.join sep (l ++ [x])%list = (Str.join sep l ++ sep ++ x)%string.
Proof.
  induction l as [|a l IH]; [congruence|]. intros _.
  destruct l as [|b l].
  - reflexivity.
  - change (Str.join sep ((a :: b :: l) ++ [x])%list)
      with (a ++ sep ++ Str.join sep ((b :: l) ++ [x])%list)%string.
    rewrite IH by discriminate.
    change (Str.join sep (a :: b :: l))
      with (a ++ sep ++ Str.join sep (b :: l))%string.
    now rewrite !append_assoc.
Qed.

(** X5.  For an element without id whose parent is an element, the XPath is
    the positional path of the parent, a slash, and the step of the element
    itself: its lower-cased tag, with the position among the earlier siblings
    of the same tag when there is one. *)
Theorem getXPath_extends_parent (c : Crumb) (loc : Location) :
  loc <> [] ->
  getXPath EmptyString (c :: loc) =
  (getXPath EmptyString loc ++ "/" ++ pathPart c)%string.
Proof.
  intros Hloc. unfold getXPath, pathParts. cbn [Str.nonempty fold_left].
  rewrite (pathParts_rev loc [pathPart c]), (pathParts_rev loc []), app_nil_r.
  rewrite join_snoc.
  - now rewrite append_assoc.
  - destruct loc as [|c0 loc]; [congruence|]. cbn [map rev].
    intros Heq. apply (f_equal (@List.length string)) in Heq.
    rewrite length_app in Heq. cbn in Heq. lia.
Qed.

(** The second division under the body of a page. *)
Lemma getXPath_extends_parent_witness :
  getXPath EmptyString
    [mkCrumb ["P"; "DIV"] "DIV"; mkCrumb ["HEAD"] "BODY"; mkCrumb [] "HTML"]
  = "/html/body/div[2]"%string.
Proof.
  rewrite getXPath_extends_parent by discriminate.
  vm_compute. reflexivity.
Defined.

End PathFacts.

Module SessionFacts.

Import Model Controller Kinds ClassifierFacts ControllerFacts RecordFacts
  Examples.
Local Open Scope list_scope.

(** Records numbered from [a] are found by position. *)
Lemma find_by_position (es : list ElementInfo) :
  forall a,
    map index es = map Z.of_nat (seq a (List.length es)) ->
    forall k, (k < List.length es)%nat ->
      element_at (Z.of_nat (a + k)) es = nth_error es k.
Proof.
  unfold element_at.
  induction es as [|e es IH]; intros a Hidx k Hk; cbn [List.length] in *.
  - lia.
  - cbn [seq map] in Hidx. injection Hidx as He Hrest.
    cbn [find]. rewrite He. destruct k as [|k].
    + rewrite Nat.add_0_r, Z.eqb_refl. reflexivity.
    + replace (Z.of_nat a =? Z.of_nat (a + S k)) with false
        by (symmetry; apply Z.eqb_neq; lia).
      cbn [nth_error]. replace (a + S k)%nat with (S a + k)%nat by lia.
      apply IH; [exact Hrest|lia].
Qed.

(** X6.  The indices a pass assigns resolve by position: looking up i in the
    records of a pass gives the record at position i when i is between 0 and
    the number of records, and nothing otherwise. *)
Theorem pass_indices_resolve
    (engine : Engine) (w w' : World engine) (es : list ElementInfo) :
  find_clickable_elements engine w = (Ok es, w') ->
  forall i,
    element_at i es =
    if (0 <=? i) && (i <? Z.of_nat (List.length es))
    then nth_error es (Z.to_nat i) else None.
Proof.
  intros Hrun i. pose proof (pass_index_list engine w w' es Hrun) as Hidx.
  destruct ((0 <=? i) && (i <? Z.of_nat (List.length es))) eqn:Hin.
  - apply andb_true_iff in Hin. destruct Hin as [H0 Hn].
    apply Z.leb_le in H0. apply Z.ltb_lt in Hn.
    rewrite <- (find_by_position es 0 Hidx (Z.to_nat i)) by lia.
    cbn [Nat.add]. now rewrite Z2Nat.id.
  - apply element_at_absent. intros e He Heq.
    apply (in_map index) in He. rewrite Hidx, Heq in He.
    apply in_map_iff in He. destruct He as (k & Hk & Hseq).
    apply in_seq in Hseq.
    apply andb_false_iff in Hin. destruct Hin as [H0|Hn].
    + apply Z.leb_gt in H0. lia.
    + apply Z.ltb_ge in Hn. lia.
Qed.

Lemma pass_indices_resolve_witness :
  element_at 2 sample_elements = nth_error sample_elements 2
  /\ element_at 4 sample_elements = None
  /\ element_at (-1) sample_elements = None.
Proof.
  assert (Hrun : find_clickable_elements obliging (opened obliging tt) =
                 (Ok sample_elements,
                  @mkWorld obliging (Some tt)
                    [Evaluate GetClickableElements []] [InfoFound 4]))
    by (vm_compute; reflexivity).
  pose proof (pass_indices_resolve obliging _ _ _ Hrun) as H.
  rewrite (H 2), (H 4), (H (-1)). repeat split.
Defined.

Lemma click_element_not_found
    (engine : Engine) i els (p : Page engine) reqs lg :
  element_at i els = None ->
  click_element engine i els (mkWorld (Some p) reqs lg) =
  (Ok false, mkWorld (Some p) reqs (lg ++ [WarningNotFound i])).
Proof.
  intros Hat. unfold click_element, bind, self_page. cbn [page].
  now rewrite Hat.
Qed.

Lemma first_applicable_is_click e s r :
  first_applicable e strategy_order = Some (s, r) -> is_click r.
Proof.
  unfold first_applicable, strategy_order, strategy_request.
  destruct (Str.nonempty (xpath e)); [now intros [= <- <-]|].
  destruct (Dict.get "id" (attributes e)); cbn [option_map];
    [now intros [= <- <-]|].
  destruct (center (bounding_box e)); cbn [option_map]; [|discriminate].
  now intros [= <- <-].
Qed.

(** X7.  [click_element] never raises, whatever the session, the index, the
    snapshot and the engine: it returns a boolean.  It sends at most one
    request, which is a click on a selector or a mouse click, never a script
    evaluation. *)
Theorem click_element_never_raises
    (engine : Engine) (w : World engine) (i : Z) (els : list ElementInfo) :
  exists b sent,
    fst (click_element engine i els w) = Ok b /\
    requests (snd (click_element engine i els w)) = requests w ++ sent /\
    (List.length sent <= 1)%nat /\
    Forall is_click sent.
Proof.
  destruct w as [[p|] reqs lg]; cbn [requests].
  - destruct (element_at i els) as [e|] eqn:Hat.
    + destruct (first_applicable e strategy_order) as [[s r]|] eqn:Hfa.
      * rewrite (click_element_applicable engine _ _ _ _ _ _ _ _ Hat Hfa).
        pose proof (first_applicable_is_click _ _ _ Hfa) as Hr.
        destruct (respond engine r p) as [[err|v] p'];
          eexists _, [r]; cbn [fst snd requests];
          (split; [reflexivity|]); (split; [reflexivity|]);
          (split; [cbn; lia|]); now constructor.
      * destruct (click_element_inapplicable engine i els e p reqs lg Hat Hfa)
          as (lg' & ->).
        exists false, []. cbn [fst snd requests List.length].
        rewrite app_nil_r. repeat split; [lia|constructor].
    + rewrite (click_element_not_found engine _ _ _ _ _ Hat).
      exists false, []. cbn [fst snd requests List.length].
      rewrite app_nil_r. repeat split; [lia|constructor].
  - exists false, []. cbn. rewrite app_nil_r. repeat split; [lia|constructor].
Qed.

(** X8.  A record with neither XPath nor id whose box is not empty but lacks
    one of x, width, y, height is not clicked: the subscript raises a
    [KeyError] for the first key missing in that order, the error is caught
    and logged, the call returns false and nothing is sent to the page. *)
Theorem click_element_missing_box_key
    (engine : Engine) (w : World engine) (p : Page engine)
    (i : Z) (els : list ElementInfo) (e : ElementInfo) (key : string) :
  page w = Some p ->
  element_at i els = Some e ->
  xpath e = EmptyString ->
  Dict.get "id" (attributes e) = None ->
  bounding_box e <> [] ->
  find (fun k => negb (Dict.mem k (bounding_box e)))
       ["x"; "width"; "y"; "height"]%string = Some key ->
  click_element engine i els w =
  (Ok false,
   mkWorld (Some p) (requests w) (log w ++ [ErrorClicking i (KeyError key)])).
Proof.
  destruct w as [pg reqs lg]. cbn [page requests log].
  intros -> Hat Hx Hid Hbb Hkey.
  rewrite (click_element_found engine _ _ _ _ _ _ Hat).
  unfold try_except, click_attempt. rewrite Hx, Hid. cbn [Str.nonempty].
  destruct (bounding_box e) as [|kv bb] eqn:Ebb; [congruence|].
  cbn [Dict.truthy]. rewrite <- Ebb in *. clear Ebb Hbb.
  unfold subscript, bind, raise, ret, logger.
  cbn [find] in Hkey. unfold Dict.mem in Hkey.
  destruct (Dict.get "x" (bounding_box e)) as [x|];
    [|now injection Hkey as <-].
  destruct (Dict.get "width" (bounding_box e)) as [wd|];
    [|now injection Hkey as <-].
  destruct (Dict.get "y" (bounding_box e)) as [y|];
    [|now injection Hkey as <-].
  destruct (Dict.get "height" (bounding_box e)) as [h|];
    [discriminate|now injection Hkey as <-].
Qed.

(** A box that was cut down to its corner. *)
Lemma click_element_missing_box_key_witness :
  click_element obliging 5
    [mkElementInfo 5 "span" "More" [] EmptyString true true
       [("x", 10%Q); ("y", 10%Q)]]
    (opened obliging tt)
  = (Ok false,
     @mkWorld obliging (Some tt) []
       ([] ++ [ErrorClicking 5 (KeyError "width")])).
Proof.
  apply (click_element_missing_box_key obliging (opened obliging tt) tt 5 _
           (mkElementInfo 5 "span" "More" [] EmptyString true true
              [("x", 10%Q); ("y", 10%Q)]));
    try reflexivity.
  discriminate.
Defined.

End SessionFacts.

Module HighlightFacts.

Import Model Controller Kinds ControllerFacts Examples.
Local Open Scope list_scope.

Lemma highlight_element_found
    (engine : Engine) i els e (p : Page engine) reqs lg :
  element_at i els = Some e ->
  highlight_element engine i els (mkWorld (Some p) reqs lg) =
  match Dict.get "id" (attributes e) with
  | Some id =>
      bind engine
        (call engine (Evaluate HighlightElement [AStr ("#" ++ id); AInt i]))
        (fun result => ret engine result) (mkWorld (Some p) reqs lg)
  | None =>
      if Str.nonempty (xpath e)
      then
        bind engine (call engine (Evaluate XPathFound [AStr (xpath e)]))
          (fun selector =>
             if truth selector
             then bind engine
                    (call engine (Evaluate XPathStyle [AStr (xpath e)]))
                    (fun _ => ret engine (VBool true))
             else ret engine (VBool false))
          (mkWorld (Some p) reqs lg)
      else (Ok (VBool false), mkWorld (Some p) reqs lg)
  end.
Proof.
  intros Hat. unfold highlight_element, bind at 1, self_page. cbn [page].
  rewrite Hat. destruct (Dict.get "id" (attributes e)); [reflexivity|].
  destruct (Str.nonempty (xpath e)); reflexivity.
Qed.

(** X9.  For a record with an id attribute, [highlight_element] on an open
    page sends one request, the overlay script with the selector made of a
    hash sign and the id, whether or not the record has an XPath.  It returns
    what the script returns, and an error of the engine is raised to the
    caller, not caught. *)
Theorem highlight_element_by_id
    (engine : Engine) (w : World engine) (p : Page engine)
    (i : Z) (els : list ElementInfo) (e : ElementInfo) (id : string) :
  page w = Some p ->
  element_at i els = Some e ->
  Dict.get "id" (attributes e) = Some id ->
  let r := Evaluate HighlightElement [AStr ("#" ++ id); AInt i] in
  requests (snd (highlight_element engine i els w)) = requests w ++ [r] /\
  log (snd (highlight_element engine i els w)) = log w /\
  (forall v, fst (respond engine r p) = Returns v ->
             fst (highlight_element engine i els w) = Ok v) /\
  (forall err, fst (respond engine r p) = Raises err ->
               fst (highlight_element engine i els w) = Raise err).
Proof.
  destruct w as [pg reqs lg]. cbn [page requests log].
  intros -> Hat Hid. cbv zeta.
  rewrite (highlight_element_found engine _ _ _ _ _ _ Hat), Hid.
  unfold bind, call, ret. cbn [page requests log].
  destruct (respond engine _ p) as [[err|v] p']; cbn [fst snd requests log];
    repeat split; try reflexivity; intros x [=]; now subst.
Qed.

Lemma highlight_element_by_id_witness :
  requests (snd (highlight_element obliging 0 [link_record]
                   (opened obliging tt)))
  = [] ++ [Evaluate HighlightElement [AStr "#home"; AInt 0]]
  /\ fst (highlight_element obliging 0 [link_record] (opened obliging tt))
     = Ok (VBool true).
Proof.
  destruct (highlight_element_by_id obliging (opened obliging tt) tt 0
              [link_record] link_record "home" eq_refl eq_refl eq_refl)
    as (Hreq & _ & Hok & _).
  split; [exact Hreq|]. apply Hok. reflexivity.
Defined.

(** X10.  For a record without id attribute that has an XPath,
    [highlight_element] first asks the page whether the XPath finds a node.
    When the answer is false it returns false and sends nothing more; when it
    is true it sends the styling script and then returns true.  An error of
    the engine on either request is raised to the caller. *)
Theorem highlight_element_by_xpath
    (engine : Engine) (w : World engine) (p : Page engine)
    (i : Z) (els : list ElementInfo) (e : ElementInfo) :
  page w = Some p ->
  element_at i els = Some e ->
  Dict.get "id" (attributes e) = None ->
  xpath e <> EmptyString ->
  let probe := Evaluate XPathFound [AStr (xpath e)] in
  let style := Evaluate XPathStyle [AStr (xpath e)] in
  let out := highlight_element engine i els w in
  (forall err p1,
      respond engine probe p = (Raises err, p1) ->
      fst out = Raise err /\ requests (snd out) = requests w ++ [probe]) /\
  (forall v p1,
      respond engine probe p = (Returns v, p1) -> truth v = false ->
      fst out = Ok (VBool false) /\
      requests (snd out) = requests w ++ [probe]) /\
  (forall v p1,
      respond engine probe p = (Returns v, p1) -> truth v = true ->
      requests (snd out) = requests w ++ [probe; style] /\
      (forall v2, fst (respond engine style p1) = Returns v2 ->
                  fst out = Ok (VBool true)) /\
      (forall err, fst (respond engine style p1) = Raises err ->
                   fst out = Raise err)).
Proof.
  destruct w as [pg reqs lg]. cbn [page requests log].
  intros -> Hat Hid Hx. cbv zeta.
  rewrite (highlight_element_found engine _ _ _ _ _ _ Hat), Hid.
  rewrite (nonempty_true _ Hx).
  unfold bind, call, ret. cbn [page requests log].
  split; [|split].
  - intros err p1 ->. now cbn.
  - intros v p1 -> ->. now cbn.
  - intros v p1 -> ->. cbn [page requests log].
    destruct (respond engine _ p1) as [[err|v2] p2]; cbn [fst snd requests];
      rewrite <- app_assoc; cbn [app];
      repeat split; try reflexivity; intros x [=]; now subst.
Qed.

(** The first record of the sample snapshot is a link without id. *)
Lemma highlight_element_by_xpath_witness :
  requests (snd (highlight_element obliging 0 sample_elements
                   (opened obliging tt)))
  = [] ++ [Evaluate XPathFound [AStr "/html/body/a"];
           Evaluate XPathStyle [AStr "/html/body/a"]].
Proof.
  destruct (highlight_element_by_xpath obliging (opened obliging tt) tt 0
              sample_elements (nth 0 sample_elements bare_record)
              eq_refl eq_refl eq_refl) as (_ & _ & Hfound).
  - discriminate.
  - destruct (Hfound (VBool true) tt eq_refl eq_refl) as (Hreq & _).
    exact Hreq.
Defined.

(** X11.  [highlight_element] never clicks: whatever the session, the index,
    the snapshot and the engine, it sends at most two requests and each is a
    script evaluation.  When it sends nothing (no page open, no record with
    the index, or a record with neither id nor XPath) it returns false. *)
Theorem highlight_element_only_evaluates
    (engine : Engine) (w : World engine) (i : Z) (els : list ElementInfo) :
  exists sent,
    requests (snd (highlight_element engine i els w)) = requests w ++ sent /\
    (List.length sent <= 2)%nat /\
    Forall is_evaluate sent /\
    (sent = [] -> fst (highlight_element engine i els w) = Ok (VBool false)).
Proof.
  destruct w as [[p|] reqs lg]; cbn [requests].
  - destruct (element_at i els) as [e|] eqn:Hat.
    + rewrite (highlight_element_found engine _ _ _ _ _ _ Hat).
      unfold bind, call, ret. cbn [page requests log].
      destruct (Dict.get "id" (attributes e)) as [id|].
      * destruct (respond engine _ p) as [[err|v] p'];
          eexists [_]; cbn [fst snd requests List.length];
          (split; [reflexivity|]); (split; [lia|]);
          (split; [repeat constructor|discriminate]).
      * destruct (Str.nonempty (xpath e)).
        -- destruct (respond engine _ p) as [[err|v] p1].
           ++ eexists [_]; cbn [fst snd requests List.length].
              split; [reflexivity|]. split; [lia|].
              split; [repeat constructor|discriminate].
           ++ destruct (truth v).
              ** cbn [page requests log].
                 destruct (respond engine _ p1) as [[err|v2] p2];
                   eexists [_; _]; cbn [fst snd requests List.length];
                   rewrite <- app_assoc;
                   (split; [reflexivity|]); (split; [lia|]);
                   (split; [repeat constructor|discriminate]).
              ** eexists [_]; cbn [fst snd requests List.length].
                 split; [reflexivity|]. split; [lia|].
                 split; [repeat constructor|discriminate].
        -- exists []. cbn [fst snd requests List.length].
           rewrite app_nil_r. repeat split; [lia|constructor].
    + exists []. unfold highlight_element, bind, self_page, logger, ret.
      cbn [page]. rewrite Hat. cbn [fst snd requests List.length].
      rewrite app_nil_r. repeat split; [lia|constructor].
  - exists []. cbn. rewrite app_nil_r. repeat split; [lia|constructor].
Qed.

End HighlightFacts.

(** ** More about the document *)

Module DocumentFacts.

Import Model ModelFacts.

Lemma map_to_dict_injective (l1 l2 : list ElementInfo) :
  map ElementInfo_to_dict l1 = map ElementInfo_to_dict l2 -> l1 = l2.
Proof.
  intros H. apply (f_equal (traverse ElementInfo_of_json)) in H.
  rewrite !(traverse_map _ _ _ ElementInfo_of_json_to_dict) in H.
  now injection H.
Qed.

(** X12.  [to_dict] loses nothing: two page analyses with the same document
    are the same analysis, url, title, timestamp and every field of every
    element included. *)
Theorem PageAnalysis_to_dict_injective (a b : PageAnalysis) :
  PageAnalysis_to_dict a = PageAnalysis_to_dict b -> a = b.
Proof.
  destruct a as [u1 t1 s1 e1], b as [u2 t2 s2 e2].
  unfold PageAnalysis_to_dict. cbn [url title timestamp elements].
  intros [= -> -> -> He]. f_equal. now apply map_to_dict_injective.
Qed.

Lemma PageAnalysis_to_dict_injective_witness :
  mkPageAnalysis "https://example.org" "Example" "2024-01-01 00:00:00"
    (rev (rev [Examples.link_record; Examples.bare_record]))
  = mkPageAnalysis "https://example.org" "Example" "2024-01-01 00:00:00"
      [Examples.link_record; Examples.bare_record].
Proof.
  apply PageAnalysis_to_dict_injective. reflexivity.
Defined.

End DocumentFacts.

(** ** Opening and analysing a page *)

Module AnalysisFacts.

Import Model Controller Display Runtime ControllerFacts RecordFacts Examples
  Scenarios.
Local Open Scope list_scope.

(** Unfolds the plumbing of the two monads. *)
Ltac unfold_run :=
  unfold rbind, rret, rraise, self, print, print_all, log_info, on_proc,
    on_page, read_title, read_url, lift, prompt, assign_new_page, write,
    record, set_world, set_proc in *.

(** Splits on something the goal branches on that does not branch itself. *)
Ltac split_run :=
  match goal with
  | |- context [match ?x with _ => _ end] =>
      lazymatch x with
      | context [match _ with _ => _ end] => fail
      | _ => destruct x eqn:?
      end
  end.

(** Reads the fields of the states that were built. *)
Ltac tidy :=
  cbn [fst snd headless playwright browser world proc trace console files
       page requests log] in *.

Ltac run := unfold_run; tidy; repeat (split_run; tidy).

(** X13.  A scraper that is not inside its context has no browser:
    [analyze_page] raises [AttributeError] at once, and nothing at all has
    happened. *)
Theorem analyze_page_without_browser
    (driver : Driver) (url : string) (s : Scraper driver) :
  browser s = false ->
  analyze_page driver url s = (Failed (PyError AttributeError), s).
Proof.
  intros Hb. unfold analyze_page, open_page. unfold_run. now rewrite Hb.
Qed.

Lemma analyze_page_without_browser_witness :
  analyze_page smooth "https://example.org/" (WebScraper_init smooth false 0%nat)
  = (Failed (PyError AttributeError), WebScraper_init smooth false 0%nat).
Proof. now apply analyze_page_without_browser. Defined.

(** X14.  Once the browser has handed out the new page, [self.page] is set
    whether [open_page] returns or raises: a navigation that fails leaves
    the session with a page open. *)
Theorem open_page_sets_page
    (driver : Driver) (url : string) (s : Scraper driver)
    (p0 : Page (engine driver)) (pr : Proc driver) :
  browser s = true ->
  new_page driver (proc s) = (inr p0, pr) ->
  exists p, page (world (snd (open_page driver url s))) = Some p.
Proof.
  intros Hb Hnew. unfold open_page. unfold_run. rewrite Hb, Hnew. cbn.
  repeat (split_run; cbn in * ); eauto.
Qed.

(** The sample page cannot be reached; the session is open all the same. *)
Lemma open_page_sets_page_witness :
  fst (open_page (sample_driver nothing_fails true) "https://example.org/"
         (ready (sample_driver nothing_fails true) tt 0%nat))
  = Failed (PyError (EngineError "net::ERR_NAME_NOT_RESOLVED"))
  /\ exists p,
       page (world (snd (open_page (sample_driver nothing_fails true)
                           "https://example.org/"
                           (ready (sample_driver nothing_fails true) tt 0%nat))))
       = Some p.
Proof.
  split; [reflexivity|].
  apply (open_page_sets_page (sample_driver nothing_fails true) _ _ tt 1%nat);
    reflexivity.
Defined.

Lemma find_clickable_elements_effect
    (engine : Engine) (w w' : World engine) (es : list ElementInfo) :
  find_clickable_elements engine w = (Ok es, w') ->
  (exists p', page w' = Some p') /\
  requests w' = requests w ++ [Evaluate GetClickableElements []] /\
  log w' = log w ++ [InfoFound (List.length es)].
Proof.
  destruct w as [[p|] reqs lg]; [|discriminate].
  unfold find_clickable_elements, evaluate_classifier, bind, self_page, call,
    logger, ret. cbn [page requests log].
  destruct (respond engine _ p) as [[err|v] p']; [discriminate|].
  intros [= <- <-]. cbn [page requests log]. rewrite length_map. eauto.
Qed.

#[local] Opaque find_clickable_elements highlight_element click_element.

(** X15.  When [analyze_page] returns, the analysis carries the url it was
    given and records numbered 0, 1, ..., n-1; the session has a page open;
    the one request sent to the page is the classifier script, so nothing
    was clicked; and nothing was printed or written to a file. *)
Theorem analyze_page_result
    (driver : Driver) (url : string) (s s' : Scraper driver)
    (analysis : PageAnalysis) :
  analyze_page driver url s = (Done analysis, s') ->
  Model.url analysis = url /\
  (exists p, page (world s') = Some p) /\
  map index (elements analysis) =
    map Z.of_nat (seq 0 (List.length (elements analysis))) /\
  requests (world s') =
    requests (world s) ++ [Evaluate GetClickableElements []] /\
  console s' = console s /\
  files s' = files s.
Proof.
  unfold analyze_page, open_page. unfold_run.
  tidy; repeat (split_run; tidy); try discriminate.
  intros [= <- <-]. cbn.
  match goal with
  | H : find_clickable_elements _ _ = (Ok _, _) |- _ =>
      pose proof (pass_index_list _ _ _ _ H) as Hidx;
      destruct (find_clickable_elements_effect _ _ _ _ H) as (Hp & Hreq & _)
  end.
  cbn in Hreq. auto 10.
Qed.

Lemma analyze_page_result_witness :
  map index
    (elements
       (mkPageAnalysis "https://example.org/" "Sample page"
          "2024-05-01 12:00:00" sample_elements))
  = map Z.of_nat (seq 0 4).
Proof.
  assert (Hrun : exists s',
             analyze_page smooth "https://example.org/" (ready smooth tt 0%nat)
             = (Done (mkPageAnalysis "https://example.org/" "Sample page"
                        "2024-05-01 12:00:00" sample_elements), s'))
    by (eexists; vm_compute; reflexivity).
  destruct Hrun as (s' & Hrun).
  destruct (analyze_page_result smooth _ _ _ _ Hrun) as (_ & _ & Hidx & _).
  exact Hidx.
Defined.

End AnalysisFacts.

(** ** What a run keeps unchanged *)

Module FrameFacts.

Import Model Controller Display Runtime Scenarios AnalysisFacts.
Local Open Scope list_scope.

#[local] Opaque find_clickable_elements highlight_element click_element.
#[local] Opaque Py.strip Py.split Py.lower Py.str_of_int ElementInfo_str
  element_details print_elements.

(** A relation that every step of a run respects is respected by the run. *)
Section Frame.

Variable driver : Driver.
Variable P : Scraper driver -> Scraper driver -> Prop.
Hypothesis P_refl : forall s, P s s.
Hypothesis P_trans : forall a b c, P a b -> P b c -> P a c.

Lemma keeps_rret {A : Type} (a : A) : keeps driver P (rret driver a).
Proof. intros s. apply P_refl. Qed.

Lemma keeps_rraise {A : Type} (f : Failure) :
  keeps driver P (@rraise driver A f).
Proof. intros s. apply P_refl. Qed.

Lemma keeps_rbind {A B : Type} (m : R driver A) (k : A -> R driver B) :
  keeps driver P m -> (forall a, keeps driver P (k a)) ->
  keeps driver P (rbind driver m k).
Proof.
  intros Hm Hk s. unfold rbind. specialize (Hm s).
  destruct (m s) as [[a|f] s1]; cbn [snd] in *; [|exact Hm].
  eapply P_trans; [exact Hm|apply Hk].
Qed.

Lemma keeps_async_with {A : Type} (body : R driver A) :
  keeps driver P (aenter driver) -> keeps driver P (aexit driver) ->
  keeps driver P body -> keeps driver P (async_with driver body).
Proof.
  intros Hin Hout Hbody. unfold async_with.
  apply keeps_rbind; [exact Hin|]. intros _ s.
  specialize (Hbody s). destruct (body s) as [[a|f] s1]; cbn [snd] in *.
  - eapply P_trans; [exact Hbody|].
    apply (keeps_rbind (aexit driver) (fun _ => rret driver a) Hout).
    intros _. apply keeps_rret.
  - specialize (Hout s1). destruct (aexit driver s1) as [[u|f'] s2];
      cbn [snd] in *; eapply P_trans; eauto.
Qed.

Hypothesis keeps_prompt : keeps driver P (prompt driver).
Hypothesis keeps_command :
  forall line els, keeps driver P (command driver line els).
Hypothesis keeps_print_all : forall out, keeps driver P (print_all driver out).
Hypothesis keeps_analyze_page :
  forall url, keeps driver P (analyze_page driver url).

Lemma keeps_command_loop lines els :
  keeps driver P (command_loop driver lines els).
Proof.
  induction lines as [|line rest IH]; cbn [command_loop].
  - apply keeps_rbind; [exact keeps_prompt|]. intros _. apply keeps_rraise.
  - apply keeps_rbind; [exact keeps_prompt|]. intros _.
    apply keeps_rbind; [apply keeps_command|].
    intros [|]; [exact IH|apply keeps_rret].
Qed.

Lemma keeps_interactive_mode lines els :
  keeps driver P (interactive_mode driver lines els).
Proof.
  unfold interactive_mode. apply keeps_rbind; [apply keeps_print_all|].
  intros _. apply keeps_command_loop.
Qed.

Lemma keeps_main_body args lines :
  (forall analysis filename,
      arg_output args = Some filename -> Str.nonempty filename = true ->
      keeps driver P (save_to_file driver analysis filename)) ->
  keeps driver P (main_body driver args lines).
Proof.
  intros Hsave. unfold main_body.
  apply keeps_rbind; [apply keeps_analyze_page|]. intros analysis.
  apply keeps_rbind; [apply keeps_print_all|]. intros _.
  apply keeps_rbind.
  - destruct (arg_output args) as [filename|]; [|apply keeps_rret].
    destruct (Str.nonempty filename) eqn:Hne; [|apply keeps_rret].
    now apply Hsave.
  - intros _. destruct (arg_interact args); [|apply keeps_rret].
    apply keeps_interactive_mode.
Qed.

End Frame.














(** X17.  When the browser fails to launch, the run ends with that error
    right away: the block under [async with] does not run, [__aexit__] is
    not called, and the library that was started is never stopped. *)
Theorem main_launch_failure
    (driver : Driver) (args : Args) (lines : list string)
    (pr pr1 pr2 : Proc driver) (e : Exn) :
  proc_call driver PlaywrightStart pr = (None, pr1) ->
  proc_call driver (ChromiumLaunch (arg_headless args)) pr1 = (Some e, pr2) ->
  main driver args lines pr =
  (Failed (PyError e),
   mkScraper (arg_headless args) true false (mkWorld None [] []) pr2
     [OnProc PlaywrightStart; OnProc (ChromiumLaunch (arg_headless args))]
     [] []).
Proof.
  intros Hstart Hlaunch.
  unfold main, async_with, aenter, WebScraper_init. unfold_run. cbn.
  rewrite Hstart. cbn. rewrite Hlaunch. reflexivity.
Qed.

Lemma main_launch_failure_witness :
  lifecycle
    (trace (snd (main (sample_driver launch_fails false)
                   (mkArgs "https://example.org/" false None true)
                   ["q"] 0%nat)))
  = [PlaywrightStart; ChromiumLaunch false].
Proof.
  rewrite (main_launch_failure (sample_driver launch_fails false)
             (mkArgs "https://example.org/" false None true) ["q"]
             0%nat 1%nat 2%nat (EngineError "Target closed")
             eq_refl eq_refl).
  reflexivity.
Defined.

End FrameFacts.

(** ** The command loop *)

Module LoopFacts.

Import Model Controller Display Runtime Kinds ControllerFacts SessionFacts
  HighlightFacts Examples Scenarios AnalysisFacts FrameFacts.
Local Open Scope list_scope.

(** A line that splits into two tokens is not a single letter. *)
Lemma two_tokens_not_a_letter (s a b : string) (c : ascii) :
  Py.split s = [a; b] -> Py.lower s <> String c EmptyString.
Proof.
  intros Hsplit Hlow.
  destruct s as [|c0 [|c1 s]]; cbn in Hlow; try discriminate.
  unfold Py.split in Hsplit. cbn in Hsplit.
  destruct (Py.isspace c0); discriminate.
Qed.

(** With the record at hand, highlighting logs nothing. *)
Lemma highlight_element_log
    (engine : Engine) (w : World engine) i els e :
  element_at i els = Some e ->
  log (snd (highlight_element engine i els w)) = log w.
Proof.
  intros Hat. destruct w as [[p|] reqs lg]; [|reflexivity].
  rewrite (highlight_element_found engine _ _ _ _ _ _ Hat).
  unfold bind, call, ret. cbn [page requests log].
  destruct (Dict.get "id" (attributes e)).
  - now destruct (respond engine _ p) as [[err|v] p'].
  - destruct (Str.nonempty (xpath e)); [|reflexivity].
    destruct (respond engine _ p) as [[err|v] p1]; [reflexivity|].
    destruct (truth v); [|reflexivity]. cbn [page requests log].
    now destruct (respond engine _ p1) as [[err|v2] p2].
Qed.

(** With the record at hand, clicking logs at most one record, and not the
    warning about a missing index. *)
Lemma click_element_log
    (engine : Engine) (w : World engine) i els e :
  element_at i els = Some e ->
  exists added,
    log (snd (click_element engine i els w)) = log w ++ added /\
    Forall (fun r => ~ is_not_found r) added.
Proof.
  intros Hat. destruct w as [[p|] reqs lg].
  - rewrite (click_element_found engine _ _ _ _ _ _ Hat).
    unfold try_except.
    destruct (first_applicable e strategy_order) as [[st r]|] eqn:Hfa.
    + rewrite (click_attempt_applicable engine _ _ _ _ _ _ _ Hfa).
      destruct (respond engine r p) as [[err|v] p'];
        eexists [_]; (split; [reflexivity|]); repeat constructor; auto.
    + revert Hfa.
      unfold first_applicable, strategy_order, strategy_request,
        click_attempt, center.
      destruct (Str.nonempty (xpath e)); [discriminate|].
      destruct (Dict.get "id" (attributes e)); [discriminate|].
      cbn [option_map]. intros Hc.
      unfold subscript, bind, raise, ret, logger. cbn [page requests log].
      destruct (Dict.truthy (bounding_box e));
        repeat (match goal with
                | |- context [match Dict.get ?k ?d with _ => _ end] =>
                    destruct (Dict.get k d)
                end);
        try discriminate;
        eexists [_]; (split; [reflexivity|]); repeat constructor; auto.
  - exists []. cbn. rewrite app_nil_r. split; [reflexivity|constructor].
Qed.

#[local] Opaque find_clickable_elements highlight_element click_element.
#[local] Opaque Py.strip Py.split Py.lower Py.str_of_int ElementInfo_str
  element_details print_elements.

(** X18.  Whatever comes after a quit line is never read: the loop over the
    lines up to a line that is the letter q, in either case and with white
    space around it, does the same as the loop with more lines after it. *)
Theorem command_loop_stops_at_quit
    (driver : Driver) (before after : list string) (line : string)
    (els : list ElementInfo) (s : Scraper driver) :
  Py.lower (Py.strip line) = "q"%string ->
  command_loop driver (before ++ line :: after) els s =
  command_loop driver (before ++ [line]) els s.
Proof.
  intros Hq. revert s.
  induction before as [|l0 before IH]; intros s; cbn [app command_loop].
  - unfold rbind. destruct (prompt driver s) as [[u|f] s1]; [|reflexivity].
    unfold command. rewrite Hq. reflexivity.
  - unfold rbind. destruct (prompt driver s) as [[u|f] s1]; [|reflexivity].
    destruct (command driver l0 els s1) as [[[|]|f] s2];
      [apply IH|reflexivity|reflexivity].
Qed.

Lemma command_loop_stops_at_quit_witness :
  command_loop smooth (["h 0"] ++ " Q " :: ["c 3"; "c 0"]) sample_elements
    (ready smooth tt 0%nat)
  = command_loop smooth (["h 0"] ++ [" Q "]) sample_elements
      (ready smooth tt 0%nat).
Proof.
  apply command_loop_stops_at_quit. vm_compute. reflexivity.
Defined.

(** X19.  One line of input reaches the page, the process or the file system
    only when it is a well-formed order to highlight or to click: two
    tokens, the first the letter h or c in either case, the second an
    integer that is the index of a record of the snapshot.  Every other line
    only prints. *)
Theorem command_reaches_page_only_for_h_and_c
    (driver : Driver) (line : string) (els : list ElementInfo)
    (s : Scraper driver) :
  (world (snd (command driver line els s)) = world s /\
   trace (snd (command driver line els s)) = trace s /\
   proc (snd (command driver line els s)) = proc s /\
   files (snd (command driver line els s)) = files s)
  \/
  (exists action token index element,
      Py.split (Py.strip line) = [action; token] /\
      int driver token = Some index /\
      element_at index els = Some element /\
      (Py.lower action = "h"%string \/ Py.lower action = "c"%string)).
Proof.
  unfold command. unfold_run.
  tidy; repeat (split_run; tidy);
    try (left; repeat split; reflexivity);
    right;
    repeat match goal with
           | H : (_ =? _)%string = true |- _ => apply String.eqb_eq in H
           end;
    eauto 10.
Qed.

Lemma logs_no_miss_same_world {driver : Driver} (a b : Scraper driver) :
  world b = world a -> logs_no_miss a b.
Proof.
  intros Hw. exists []. rewrite Hw, app_nil_r.
  split; [reflexivity|constructor].
Qed.

Lemma logs_no_miss_trans {driver : Driver} (a b c : Scraper driver) :
  logs_no_miss a b -> logs_no_miss b c -> logs_no_miss a c.
Proof.
  intros (l1 & H1 & F1) (l2 & H2 & F2). exists (l1 ++ l2).
  rewrite H2, H1, app_assoc. split; [reflexivity|].
  apply Forall_app. now split.
Qed.

Lemma logs_no_miss_command (driver : Driver) line els :
  keeps driver logs_no_miss (command driver line els).
Proof.
  intros s. unfold command. unfold_run.
  tidy; repeat (split_run; tidy);
    try (apply logs_no_miss_same_world; reflexivity).
  all: unfold logs_no_miss; cbn [world log].
  all: try match goal with
           | Hat : element_at ?i ?l = Some _,
             H : highlight_element _ ?i ?l ?w = (_, ?w') |- _ =>
               pose proof (highlight_element_log _ w i l _ Hat) as HL;
               rewrite H in HL; cbn [snd] in HL; rewrite HL;
               exists []; rewrite app_nil_r; split; [reflexivity|constructor]
           end.
  all: match goal with
       | Hat : element_at ?i ?l = Some _,
         H : click_element _ ?i ?l ?w = (_, ?w') |- _ =>
           destruct (click_element_log _ w i l _ Hat) as (added & HL & HF);
           rewrite H in HL; cbn [snd] in HL; exists added; now split
       end.
Qed.

(** X20.  The loop never logs the warning that an index was not found: it
    looks the index up itself and calls [highlight_element] and
    [click_element] only with an index the snapshot holds. *)
Theorem interactive_mode_never_logs_not_found
    (driver : Driver) (lines : list string) (els : list ElementInfo)
    (s : Scraper driver) :
  exists added,
    log (world (snd (interactive_mode driver lines els s))) =
    log (world s) ++ added /\
    Forall (fun r => ~ is_not_found r) added.
Proof.
  apply (keeps_interactive_mode driver logs_no_miss
           (fun a => logs_no_miss_same_world a a eq_refl)
           logs_no_miss_trans).
  - intros s0. now apply logs_no_miss_same_world.
  - apply logs_no_miss_command.
  - intros out s0. now apply logs_no_miss_same_world.
Qed.

(** X21.  The order to highlight always reports success: when
    [highlight_element] returns, whatever it returns, the loop prints that
    the element was highlighted and goes on. *)
Theorem highlight_command_reports_success
    (driver : Driver) (line action token : string) (index : Z)
    (els : list ElementInfo) (element : ElementInfo)
    (s : Scraper driver) (v : Value) (w' : World (engine driver)) :
  Py.split (Py.strip line) = [action; token] ->
  Py.lower action = "h"%string ->
  int driver token = Some index ->
  element_at index els = Some element ->
  highlight_element (engine driver) index els (world s) = (Ok v, w') ->
  command driver line els s =
  (Done Continue,
   write driver [Print ("Highlighted element " ++ Py.str_of_int index)]
     (set_world driver w' s)).
Proof.
  intros Hsplit Haction Hint Hat Hrun. unfold command.
  destruct (String.eqb_spec (Py.lower (Py.strip line)) "q") as [Hq|_].
  { now apply (two_tokens_not_a_letter _ _ _ _ Hsplit) in Hq. }
  destruct (String.eqb_spec (Py.lower (Py.strip line)) "l") as [Hl|_].
  { now apply (two_tokens_not_a_letter _ _ _ _ Hsplit) in Hl. }
  rewrite Hsplit, Hint, Hat, Haction. cbn [String.eqb Ascii.eqb Bool.eqb].
  unfold_run. rewrite Hrun. reflexivity.
Qed.

(** On the stubborn engine the scripts return nothing, so highlighting the
    link of the sample page fails; the loop says it was highlighted. *)
Lemma highlight_command_reports_success_witness :
  fst (highlight_element stubborn 0 sample_elements
         (world (ready glum 0%nat 0%nat)))
  = Ok (VBool false)
  /\ console (snd (command glum "h 0" sample_elements (ready glum 0%nat 0%nat)))
     = [Print "Highlighted element 0"].
Proof.
  split; [vm_compute; reflexivity|].
  rewrite (highlight_command_reports_success glum "h 0" "h" "0" 0
             sample_elements (nth 0 sample_elements bare_record)
             (ready glum 0%nat 0%nat) (VBool false)
             (@mkWorld stubborn (Some 1%nat)
                [Evaluate XPathFound [AStr "/html/body/a"]] [])).
  - vm_compute. reflexivity.
  - vm_compute. reflexivity.
  - vm_compute. reflexivity.
  - vm_compute. reflexivity.
  - vm_compute. reflexivity.
  - vm_compute. reflexivity.
Defined.

End LoopFacts.

(** ** The run as a whole, and the printed form of a record *)

Module MainFacts.

Import Model Controller Display Runtime Examples Scenarios AnalysisFacts
  FrameFacts.
Local Open Scope list_scope.

#[local] Opaque find_clickable_elements highlight_element click_element.
#[local] Opaque Py.strip Py.split Py.lower Py.str_of_int ElementInfo_str
  element_details print_elements.





Lemma unwritten_refl {driver : Driver} (s : Scraper driver) : unwritten s s.
Proof. reflexivity. Qed.

Lemma unwritten_trans {driver : Driver} (a b c : Scraper driver) :
  unwritten a b -> unwritten b c -> unwritten a c.
Proof. unfold unwritten. congruence. Qed.

Ltac unwritten_by_cases :=
  intros s; unfold command, analyze_page, open_page, aenter, aexit;
  unfold_run; tidy; repeat (split_run; tidy); reflexivity.

(** X23.  Without an output file name, or with an empty one, a run writes no
    file, however it goes. *)
Theorem main_without_output_writes_nothing
    (driver : Driver) (args : Args) (lines : list string) (pr : Proc driver) :
  arg_output args = None \/ arg_output args = Some EmptyString ->
  files (snd (main driver args lines pr)) = [].
Proof.
  intros Hout. unfold main.
  apply (keeps_async_with driver unwritten unwritten_refl unwritten_trans).
  - unwritten_by_cases.
  - unwritten_by_cases.
  - apply (keeps_main_body driver unwritten unwritten_refl unwritten_trans).
    + unwritten_by_cases.
    + intros line els. unwritten_by_cases.
    + intros out. unwritten_by_cases.
    + intros url. unwritten_by_cases.
    + intros analysis filename Hsome Hne.
      destruct Hout as [Hnone|Hempty]; [congruence|].
      rewrite Hempty in Hsome. injection Hsome as <-. discriminate.
Qed.

Lemma main_without_output_writes_nothing_witness :
  files
    (snd (main smooth (mkArgs "https://example.org/" true None true)
            ["c 3"; "q"] 0%nat))
  = [].
Proof.
  apply main_without_output_writes_nothing. now left.
Defined.

End MainFacts.

(** ** Hidden parts of the page *)

Module PruningFacts.

Import Classifier Pruning ClassifierFacts Examples.
Local Open Scope list_scope.

Lemma prune_same_surface (element : Element) :
  tagName (prune element) = tagName element /\
  isVisible (prune element) = isVisible element /\
  isInteractive (prune element) = isInteractive element /\
  forall window i loc,
    describe window i loc (prune element) = describe window i loc element.
Proof. destruct element. repeat split. Qed.

Lemma forEachChild_prune (f : list string -> Element -> Pass -> Pass) kids :
  Forall (fun k => forall prev st, f prev (prune k) st = f prev k st) kids ->
  forall prev st,
    forEachChild f prev (map prune kids) st = forEachChild f prev kids st.
Proof.
  induction 1 as [|k kids Hk _ IH]; intros prev st; cbn [map forEachChild].
  - reflexivity.
  - destruct (prune_same_surface k) as (Htag & _). rewrite Htag, Hk. apply IH.
Qed.

Lemma processElement_prune window element :
  forall above prev st,
    processElement window above prev (prune element) st =
    processElement window above prev element st.
Proof.
  induction element using Element_tree_ind. intros above prev st.
  set (e := mkElement tg attrs oc v ph it tc r cs kids).
  destruct (prune_same_surface e) as (Htag & Hvis & Hint & Hdesc).
  change (processElement window above prev (prune e) st)
    with (if negb (isVisible (prune e)) then st
          else forEachChild
                 (processElement window
                    (mkCrumb prev (tagName (prune e)) :: above))
                 [] (children (prune e))
                 (if isInteractive (prune e)
                  then push window
                         (mkCrumb prev (tagName (prune e)) :: above)
                         (prune e) st
                  else st)).
  change (processElement window above prev e st)
    with (if negb (isVisible e) then st
          else forEachChild
                 (processElement window (mkCrumb prev (tagName e) :: above))
                 [] (children e)
                 (if isInteractive e
                  then push window (mkCrumb prev (tagName e) :: above) e st
                  else st)).
  rewrite Hvis, Htag, Hint.
  destruct (isVisible e) eqn:Hv; cbn [negb]; [|reflexivity].
  unfold push. rewrite Hdesc.
  change (children (prune e))
    with (if isVisible e then map prune kids else []).
  rewrite Hv. change (children e) with kids.
  apply forEachChild_prune.
  eapply Forall_impl; [|exact H]. intros k Hk prev0 st0. apply Hk.
Qed.

(** X24.  What lies below an invisible element has no influence on a pass:
    the pass over a document gives the same records as the pass over the
    document with everything below its invisible elements cut off.  So an
    element inside an invisible one is never recorded, however visible and
    interactive it is itself. *)
Theorem pass_ignores_hidden_subtrees (window : Window) (document : Document) :
  JS_GET_CLICKABLE_ELEMENTS window (prune_document document) =
  JS_GET_CLICKABLE_ELEMENTS window document.
Proof.
  unfold JS_GET_CLICKABLE_ELEMENTS, prune_document.
  cbn [body body_prev body_above].
  destruct (body document) as [b|]; cbn [option_map]; [|reflexivity].
  now rewrite processElement_prune.
Qed.

End PruningFacts.
